(** * download_dataset.py: the dataset fetcher, embedded and verified

    The script under
    [Resources/scripts/download_dataset.py] parses one command-line
    argument, creates the output directory, asks the Hugging Face client for
    one file and copies it to [<output_dir>/autocodebench.jsonl] when the
    client put it somewhere else.

    The development has two layers.
    - [Script]: the body of [main], written in a small exception/state monad
      over an arbitrary operating-system interface [OS].  Everything proved
      there holds for every implementation of the interface.
    - [Posix]: an in-memory POSIX filesystem implementing [OS], with the hub
      client left as a parameter: path lookup as the kernel does it,
      [os.makedirs] and [shutil.copy2] as the standard library writes them.
      It is used for the statements that speak about directories and file
      contents, and to run the script on concrete inputs.

    [Double] is a scripted stand-in for [OS], for scenarios the in-memory
    filesystem has no cause for (a full disk, a refused [mkdir]). *)

From stdpp Require Import base strings list gmap pretty.
From Stdlib Require Import Ascii ZArith Lia.

Open Scope string_scope.
Open Scope list_scope.
Open Scope Z_scope.

(** ** Python values the script handles *)

(** An instance of Python's [Exception]: what [except Exception as e] binds.
    [exc_str] is [str(e)].  [exc_type] and [exc_frames] are only used by the
    interpreter when it prints the traceback of an exception nobody caught:
    [exc_frames] is the text of the entries the exception has collected when
    it leaves the call that raised it, those of the script included. *)
Record exn := Exception {
  exc_type : string;
  exc_str : string;
  exc_frames : string
}.

(** The keyword arguments of the one call to [hf_hub_download]. *)
Record DownloadRequest := mkRequest {
  repo_id : string;
  filename : string;
  repo_type : string;
  local_dir : string;
  local_dir_use_symlinks : bool
}.

(** Calls that leave the interpreter, in the order the script makes them. *)
Inductive event :=
| EvMakedirs (name : string) (exist_ok : bool)
| EvImportHub
| EvDownload (req : DownloadRequest)
| EvAbspath (p : string)
| EvCopy2 (src dst : string).

#[global] Instance exn_eq_dec : EqDecision exn.
Proof. solve_decision. Defined.
#[global] Instance DownloadRequest_eq_dec : EqDecision DownloadRequest.
Proof. solve_decision. Defined.
#[global] Instance event_eq_dec : EqDecision event.
Proof. solve_decision. Defined.

Definition is_download (ev : event) : bool :=
  match ev with EvDownload _ => true | _ => false end.

Definition is_fs_write (ev : event) : bool :=
  match ev with EvMakedirs _ _ | EvCopy2 _ _ => true | _ => false end.

(** The line terminator [print] appends. *)
Definition nl : string := String "010"%char EmptyString.

(** ** posixpath.join, for the two-argument call of the script *)

Fixpoint ends_with_sep (s : string) : bool :=
  match s with
  | EmptyString => false
  | String c EmptyString => bool_decide (c = "/"%char)
  | String _ rest => ends_with_sep rest
  end.

Definition starts_with_sep (s : string) : bool :=
  match s with
  | String c _ => bool_decide (c = "/"%char)
  | EmptyString => false
  end.

Definition os_path_join (a b : string) : string :=
  if starts_with_sep b then b
  else if bool_decide (a = EmptyString) || ends_with_sep a then a +:+ b
  else a +:+ "/" +:+ b.

(** ** The operating system, as the script sees it *)

(** Every operation takes the world, returns normally or raises an
    [Exception], and leaves a world behind in both cases (a failed [makedirs]
    may have created some parents, a failed download may have left partial
    files).  A call that is interrupted or that ends the interpreter
    ([KeyboardInterrupt], [SystemExit]) is not an outcome of the interface.
    What a library prints on its own while it runs (the progress bar of the
    client on standard error) belongs to the world; the streams of the model
    hold what the script and the interpreter write.

    [sys_stdout_write s] is the exception [sys.stdout.write(s)] raises when
    the encoder of standard output rejects [s] ([UnicodeEncodeError] under a
    strict encoder), if it does.  Standard error encodes with
    [backslashreplace] and rejects nothing. *)
Class OS (W : Type) := {
  os_makedirs : string → bool → W → (exn + unit) * W;
  import_huggingface_hub : W → (exn + unit) * W;
  hf_hub_download : DownloadRequest → W → (exn + string) * W;
  os_path_abspath : string → W → (exn + string) * W;
  shutil_copy2 : string → string → W → (exn + unit) * W;
  sys_stdout_write : string → option exn
}.

(** What a call gives back to the script. *)
Definition answer (ev : event) : Type :=
  match ev with
  | EvDownload _ | EvAbspath _ => string
  | EvMakedirs _ _ | EvImportHub | EvCopy2 _ _ => unit
  end.

Module Script.

(** How a block of statements ends: it falls through with a value, an
    [Exception] is propagating, or [sys.exit] was called ([SystemExit] is not
    an [Exception], so [except Exception] lets it through). *)
Inductive completion (A : Type) :=
| Normal (a : A)
| Raised (e : exn)
| SysExit (code : Z).
Arguments Normal {A} a.
Arguments Raised {A} e.
Arguments SysExit {A} code.

Section Script.
Context {W : Type} `{!OS W}.

(** What one interpreter run has accumulated so far. *)
Record State := mkState {
  world : W;
  trace : list event;
  stdout : string;
  stderr : string
}.

Definition M (A : Type) : Type := State → completion A * State.

#[local] Instance M_ret : MRet M := fun A (a : A) st => (Normal a, st).

#[local] Instance M_bind : MBind M := fun A B (k : A → M B) (m : M A) st =>
  match m st with
  | (Normal a, st') => k a st'
  | (Raised e, st') => (Raised e, st')
  | (SysExit c, st') => (SysExit c, st')
  end.

(** [try: body except Exception as e: handler e] *)
Definition try_except {A} (body : M A) (handler : exn → M A) : M A :=
  fun st =>
    match body st with
    | (Raised e, st') => handler e st'
    | other => other
    end.

(** The operation a call stands for. *)
Definition perform (ev : event) : W → (exn + answer ev) * W :=
  match ev as ev' return W → (exn + answer ev') * W with
  | EvMakedirs name exist_ok => os_makedirs name exist_ok
  | EvImportHub => import_huggingface_hub
  | EvDownload req => hf_hub_download req
  | EvAbspath p => os_path_abspath p
  | EvCopy2 src dst => shutil_copy2 src dst
  end.

(** A call into the operating system: the operation runs on the world and
    the call is logged; the log cannot name a call that was not made. *)
Definition call (ev : event) : M (answer ev) :=
  fun st =>
    let '(r, w') := perform ev (world st) in
    let st' := mkState w' (trace st ++ [ev]) (stdout st) (stderr st) in
    match r with
    | inl e => (Raised e, st')
    | inr a => (Normal a, st')
    end.

(** [print(s)]: [sys.stdout.write(s)], then the newline.  When the encoder
    rejects [s] the write raises and nothing reaches the stream. *)
Definition print (s : string) : M unit :=
  fun st =>
    match sys_stdout_write s with
    | Some e => (Raised e, st)
    | None =>
        (Normal (), mkState (world st) (trace st) (stdout st +:+ s +:+ nl) (stderr st))
    end.

(** [print(s, file=sys.stderr)]: the text and a newline. *)
Definition print_stderr (s : string) : M unit :=
  fun st => (Normal (), mkState (world st) (trace st) (stdout st) (stderr st +:+ s +:+ nl)).

Definition sys_exit {A} (code : Z) : M A := fun st => (SysExit code, st).

Definition str (e : exn) : string := exc_str e.

(** *** The script *)

Definition usage : string := "Usage: download_dataset.py <output_dir>".

Definition request (out_dir : string) : DownloadRequest :=
  {| repo_id := "tencent/AutoCodeBenchmark";
     filename := "autocodebench.jsonl";
     repo_type := "dataset";
     local_dir := out_dir;
     local_dir_use_symlinks := false |}.

(** Lines 27-29: copy the file to [out_path] unless it is already there. *)
Definition place_step (path out_path : string) : M unit :=
  a ← call (EvAbspath path);
  b ← call (EvAbspath out_path);
  if bool_decide (a ≠ b)
  then call (EvCopy2 path out_path)
  else mret ().

(** Lines 18-30, the body of the [try]. *)
Definition try_body (out_dir out_path : string) : M unit :=
  call EvImportHub ;;
  path ← call (EvDownload (request out_dir));
  place_step path out_path ;;
  print out_path.

(** Lines 31-33, the [except Exception as e] clause. *)
Definition except_clause (e : exn) : M unit :=
  print_stderr (str e) ;;
  sys_exit 2.

(** The canonical path, [out_path] of line 16. *)
Definition canonical (out_dir : string) : string :=
  os_path_join out_dir "autocodebench.jsonl".

(** Lines 17-33: the [try] statement. *)
Definition transfer (out_dir : string) : M unit :=
  try_except (try_body out_dir (canonical out_dir)) except_clause.

(** Lines 14-33: what [main] does once [sys.argv[1]] is known to exist. *)
Definition fetch (out_dir : string) : M unit :=
  call (EvMakedirs out_dir true) ;;
  transfer out_dir.

(** [main()], with [sys.argv] passed in. *)
Definition main (argv : list string) : M unit :=
  (if bool_decide (List.length argv < 2)%nat
   then print_stderr usage ;; sys_exit 1
   else mret ()) ;;
  match argv !! 1%nat with
  | Some out_dir => fetch out_dir
  | None => mret ()   (* unreachable: the guard above has exited *)
  end.

(** *** The interpreter around [main] *)

(** What CPython prints for an exception that reaches the top level. *)
Definition traceback (e : exn) : string :=
  "Traceback (most recent call last):" +:+ nl +:+ exc_frames e +:+
  (if bool_decide (exc_str e = EmptyString) then exc_type e
   else exc_type e +:+ ": " +:+ exc_str e) +:+ nl.

(** What the caller of the process observes, with the call log and the final
    world kept for the proofs.  The two streams hold what the script and the
    interpreter write; what a library writes on its own is part of the
    world. *)
Record Process := mkProcess {
  p_stdout : string;
  p_stderr : string;
  p_exit : Z;
  p_trace : list event;
  p_world : W
}.

Definition init (w : W) : State := mkState w [] EmptyString EmptyString.

(** [if __name__ == "__main__": main()] under CPython: falling off the end
    exits 0, [sys.exit(n)] exits [n], an uncaught exception prints its
    traceback on standard error and exits 1. *)
Definition run (argv : list string) (w : W) : Process :=
  match main argv (init w) with
  | (Normal _, st) => mkProcess (stdout st) (stderr st) 0 (trace st) (world st)
  | (SysExit c, st) => mkProcess (stdout st) (stderr st) c (trace st) (world st)
  | (Raised e, st) =>
      mkProcess (stdout st) (stderr st +:+ traceback e) 1 (trace st) (world st)
  end.

(** *** Views of one run, used to state the properties *)

(** The client's answer in the run started with [out_dir] in [w], when the run
    gets as far as calling it: the directory step and the import both
    returned normally. *)
Definition client_outcome (out_dir : string) (w : W) : option ((exn + string) * W) :=
  match os_makedirs out_dir true w with
  | (inr _, w0) =>
      match import_huggingface_hub w0 with
      | (inr _, w0') => Some (hf_hub_download (request out_dir) w0')
      | (inl _, _) => None
      end
  | (inl _, _) => None
  end.

(** What lines 27-29 do to the world: [place_step] without the log. *)
Definition place (path out_path : string) (w : W) : (exn + unit) * W :=
  match os_path_abspath path w with
  | (inl e, w') => (inl e, w')
  | (inr a, w') =>
      match os_path_abspath out_path w' with
      | (inl e, w'') => (inl e, w'')
      | (inr b, w'') =>
          if bool_decide (a ≠ b) then shutil_copy2 path out_path w''
          else (inr (), w'')
      end
  end.

(** How the body of the [try] ends and the world it leaves: the first
    exception raised by the import, the client, lines 27-29 or the [print] of
    line 30, in that order, or a normal end. *)
Definition try_result (out_dir : string) (w : W) : (exn + unit) * W :=
  match import_huggingface_hub w with
  | (inl e, w1) => (inl e, w1)
  | (inr _, w1) =>
      match hf_hub_download (request out_dir) w1 with
      | (inl e, w2) => (inl e, w2)
      | (inr path, w2) =>
          match place path (canonical out_dir) w2 with
          | (inl e, w3) => (inl e, w3)
          | (inr _, w3) =>
              match sys_stdout_write (canonical out_dir) with
              | Some e => (inl e, w3)
              | None => (inr (), w3)
              end
          end
      end
  end.

(** The path the client returned in the run started with [out_dir] in [w];
    the empty string when the client did not return. *)
Definition returned_path (out_dir : string) (w : W) : string :=
  match client_outcome out_dir w with
  | Some (inr path, _) => path
  | _ => EmptyString
  end.

(** Every call a run can make, in source order: lines 15, 18, 19, 27 (twice)
    and 29, with [path] what the client returned. *)
Definition call_sequence (out_dir path : string) : list event :=
  [EvMakedirs out_dir true; EvImportHub; EvDownload (request out_dir);
   EvAbspath path; EvAbspath (canonical out_dir); EvCopy2 path (canonical out_dir)].

(** How a block ends when its last call answered [r]. *)
Definition completion_of (r : exn + unit) : completion unit :=
  match r with inl e => Raised e | inr u => Normal u end.

(** The calls lines 27-29 make on the way. *)
Definition place_events (path out_path : string) (w : W) : list event :=
  match os_path_abspath path w with
  | (inl _, _) => [EvAbspath path]
  | (inr a, w') =>
      match os_path_abspath out_path w' with
      | (inl _, _) => [EvAbspath path; EvAbspath out_path]
      | (inr b, _) =>
          if bool_decide (a ≠ b)
          then [EvAbspath path; EvAbspath out_path; EvCopy2 path out_path]
          else [EvAbspath path; EvAbspath out_path]
      end
  end.

End Script.

(** Number of line terminators in a stream: the lines written to it. *)
Fixpoint line_count (s : string) : nat :=
  match s with
  | EmptyString => 0
  | String c rest =>
      ((if bool_decide (c = "010"%char) then 1 else 0) + line_count rest)%nat
  end.

End Script.

(** * An in-memory POSIX filesystem behind the [OS] interface

    Directories and regular files, no symbolic links and no permissions.  A
    path is looked up component by component, as the kernel does; the
    library functions on top are written as CPython 3.11 has them.  The hub
    client stays a parameter. *)
Module Posix.
Import Script.

(** ** posixpath *)

(** [s.split('/')] *)
Fixpoint split_sep (s : string) : list string :=
  match s with
  | EmptyString => [EmptyString]
  | String c rest =>
      if bool_decide (c = "/"%char) then EmptyString :: split_sep rest
      else match split_sep rest with
           | h :: t => String c h :: t
           | [] => [String c EmptyString]
           end
  end.

Definition isabs (p : string) : bool := starts_with_sep p.

(** POSIX allows one or two initial slashes and treats three or more as one. *)
Definition initial_slashes (p : string) : nat :=
  if String.prefix "///" p then 1
  else if String.prefix "//" p then 2
  else if String.prefix "/" p then 1
  else 0.

(** One round of the loop of [normpath] over the components. *)
Definition normpath_step (rooted : bool) (new_comps : list string) (comp : string)
  : list string :=
  if bool_decide (comp = EmptyString ∨ comp = ".") then new_comps
  else if bool_decide (comp ≠ "..")
          || (negb rooted && bool_decide (new_comps = []))
          || bool_decide (last new_comps = Some "..")
  then new_comps ++ [comp]
  else removelast new_comps.

Definition slashes (n : nat) : string := String.concat EmptyString (replicate n "/").

Definition normpath (path : string) : string :=
  if bool_decide (path = EmptyString) then "."
  else
    let n := initial_slashes path in
    let comps := foldl (normpath_step (bool_decide (n ≠ 0%nat))) [] (split_sep path) in
    let res := slashes n +:+ String.concat "/" comps in
    if bool_decide (res = EmptyString) then "." else res.

(** [os.path.abspath], given the current directory. *)
Definition abspath_in (cwd p : string) : string :=
  normpath (if isabs p then p else os_path_join cwd p).

(** [os.path.basename]: what follows the last slash. *)
Definition basename (p : string) : string :=
  default EmptyString (last (split_sep p)).

(** [(p[:i], p[i:])] for [i = p.rfind('/') + 1]. *)
Fixpoint split_last_sep (p : string) : string * string :=
  match p with
  | EmptyString => (EmptyString, EmptyString)
  | String c rest =>
      let '(h, t) := split_last_sep rest in
      if bool_decide (h ≠ EmptyString) then (String c h, t)
      else if bool_decide (c = "/"%char) then ("/", t)
      else (EmptyString, String c t)
  end.

(** [s.rstrip('/')] *)
Fixpoint rstrip_sep (s : string) : string :=
  match s with
  | EmptyString => EmptyString
  | String c rest =>
      let r := rstrip_sep rest in
      if bool_decide (r = EmptyString) && bool_decide (c = "/"%char)
      then EmptyString else String c r
  end.

(** [s == '/' * len(s)] *)
Fixpoint all_sep (s : string) : bool :=
  match s with
  | EmptyString => true
  | String c rest => bool_decide (c = "/"%char) && all_sep rest
  end.

(** [os.path.split]: the head loses its trailing slashes unless it is the
    root. *)
Definition os_path_split (p : string) : string * string :=
  let '(head, tail) := split_last_sep p in
  (if bool_decide (head ≠ EmptyString) && negb (all_sep head)
   then rstrip_sep head else head,
   tail).

(** ** The filesystem *)

Record stat := mkStat { st_mode : N; st_mtime : N }.

Inductive node :=
| Dir
| File (data : string) (meta : stat).

(** Entries are keyed by the names on the way down from the root, which is
    the empty list.  [script_file] is the file name CPython records for the
    running script and shows in tracebacks: [sys.argv[0]] as the interpreter
    was started, joined to the current directory of that moment. *)
Record World := mkWorld {
  fs : gmap (list string) node;
  cwd : string;
  clock : N;
  hub_installed : bool;
  script_file : string
}.

#[global] Instance stat_eq_dec : EqDecision stat.
Proof. solve_decision. Defined.
#[global] Instance node_eq_dec : EqDecision node.
Proof. solve_decision. Defined.

Definition abspath (w : World) (p : string) : string := abspath_in (cwd w) p.

Definition with_fs (w : World) (f : gmap (list string) node) : World :=
  mkWorld f (cwd w) (clock w) (hub_installed w) (script_file w).

(** ** Path lookup *)

(** The names of a path: its components without the empty ones that repeated
    or trailing slashes leave. *)
Definition components (p : string) : list string :=
  filter (λ c, c ≠ EmptyString) (split_sep p).

(** Where the lookup of [p] starts: the root, or the current directory. *)
Definition start (w : World) (p : string) : list string :=
  if starts_with_sep p then [] else components (cwd w).

(** How a lookup ends: at an entry; at a name that does not exist in a
    directory that does; or in one of the errors ENOENT and ENOTDIR. *)
Inductive found :=
| At (k : list string) (n : node)
| Absent (k : list string)
| NoEnt
| NotDir.

Fixpoint walk (f : gmap (list string) node) (cur comps : list string) : found :=
  match comps with
  | [] => At cur Dir
  | c :: rest =>
      if bool_decide (c = ".") then walk f cur rest
      else if bool_decide (c = "..") then walk f (removelast cur) rest
      else
        match f !! (cur ++ [c]) with
        | Some Dir => walk f (cur ++ [c]) rest
        | Some (File data meta) =>
            match rest with
            | [] => At (cur ++ [c]) (File data meta)
            | _ :: _ => NotDir
            end
        | None =>
            match rest with
            | [] => Absent (cur ++ [c])
            | _ :: _ => NoEnt
            end
        end
  end.

(** The lookup that creating calls ([mkdir], [open] with [O_CREAT]) do. *)
Definition walk_path (w : World) (p : string) : found :=
  if bool_decide (p = EmptyString) then NoEnt
  else walk (fs w) (start w p) (components p).

(** The lookup of [stat]: a regular file followed by a slash is ENOTDIR. *)
Definition lookup (w : World) (p : string) : found :=
  match walk_path w p with
  | At k (File data meta) => if ends_with_sep p then NotDir else At k (File data meta)
  | r => r
  end.

(** What [stat] finds at [p]. *)
Definition node_at (w : World) (p : string) : option node :=
  match lookup w p with
  | At _ n => Some n
  | _ => None
  end.

(** [os.path.exists], [os.path.isdir], [os.path.isfile] *)
Definition os_path_exists (w : World) (p : string) : bool :=
  bool_decide (is_Some (node_at w p)).

Definition is_dir (w : World) (p : string) : bool :=
  bool_decide (node_at w p = Some Dir).

Definition is_file (w : World) (p : string) : bool :=
  match node_at w p with Some (File _ _) => true | _ => false end.




(** ** Errors *)

Definition dq : string := String "034"%char EmptyString.

(** [str] of an [OSError] carrying a file name. *)
Definition os_error (type errno msg name frames : string) : exn :=
  Exception type ("[Errno " +:+ errno +:+ "] " +:+ msg +:+ ": '" +:+ name +:+ "'") frames.

Definition FileNotFoundError (name frames : string) : exn :=
  os_error "FileNotFoundError" "2" "No such file or directory" name frames.
Definition FileExistsError (name frames : string) : exn :=
  os_error "FileExistsError" "17" "File exists" name frames.
Definition NotADirectoryError (name frames : string) : exn :=
  os_error "NotADirectoryError" "20" "Not a directory" name frames.
Definition IsADirectoryError (name frames : string) : exn :=
  os_error "IsADirectoryError" "21" "Is a directory" name frames.
Definition SameFileError (src dst : string) : exn :=
  Exception "shutil.SameFileError"
    ("'" +:+ src +:+ "' and '" +:+ dst +:+ "' are the same file") EmptyString.
Definition ModuleNotFoundError : exn :=
  Exception "ModuleNotFoundError" "No module named 'huggingface_hub'" EmptyString.

Definition is_FileExistsError (e : exn) : bool :=
  bool_decide (exc_type e = "FileExistsError").

(** One entry of a traceback: the place, and the source line when the file
    has one to show. *)
Definition frame (file line scope source : string) : string :=
  "  File " +:+ dq +:+ file +:+ dq +:+ ", line " +:+ line +:+ ", in " +:+ scope +:+ nl +:+
  (if bool_decide (source = EmptyString) then EmptyString
   else "    " +:+ source +:+ nl).

(** The entries above a call made on line 15 of the script. *)
Definition makedirs_frames (script : string) : string :=
  frame script "36" "<module>" "main()" +:+
  frame script "15" "main" "os.makedirs(out_dir, exist_ok=True)".

(** The entries of [os.makedirs] itself: at its call of [mkdir], and at its
    call of itself. *)
Definition mkdir_frame : string := frame "<frozen os>" "225" "makedirs" EmptyString.
Definition recursion_frame : string := frame "<frozen os>" "215" "makedirs" EmptyString.

Definition add_frames (frames : string) (e : exn) : exn :=
  Exception (exc_type e) (exc_str e) (frames +:+ exc_frames e).

(** ** os.mkdir and os.makedirs *)

Definition mkdir (name : string) (w : World) : (exn + unit) * World :=
  match walk_path w name with
  | At _ _ => (inl (FileExistsError name EmptyString), w)
  | Absent k => (inr (), with_fs w (<[k := Dir]> (fs w)))
  | NoEnt => (inl (FileNotFoundError name EmptyString), w)
  | NotDir => (inl (NotADirectoryError name EmptyString), w)
  end.

(** The last four lines of [os.makedirs]: [mkdir], and the [OSError] it
    raises is dropped when [exist_ok] is set and the directory is there. *)
Definition mkdir_exist_ok (name : string) (exist_ok : bool) (w : World)
  : (exn + unit) * World :=
  match mkdir name w with
  | (inl e, w') =>
      if negb exist_ok || negb (is_dir w' name)
      then (inl (add_frames mkdir_frame e), w')
      else (inr (), w')
  | (inr u, w') => (inr u, w')
  end.

(** The first three lines of [os.makedirs]: split the name, and once more
    when it ends with a slash. *)
Definition makedirs_head_tail (name : string) : string * string :=
  let '(head, tail) := os_path_split name in
  if bool_decide (tail = EmptyString) then os_path_split head else (head, tail).

(** [os.makedirs], the recursion bounded by the length of the name: each
    round passes a shorter head. *)
Fixpoint makedirs_rec (fuel : nat) (name : string) (exist_ok : bool) (w : World)
  : (exn + unit) * World :=
  match fuel with
  | O => (inl (Exception "RecursionError" "maximum recursion depth exceeded" EmptyString), w)
  | S fuel' =>
      let '(head, tail) := makedirs_head_tail name in
      if bool_decide (head ≠ EmptyString) && bool_decide (tail ≠ EmptyString)
         && negb (os_path_exists w head)
      then
        match makedirs_rec fuel' head exist_ok w with
        | (inl e, w') =>
            if is_FileExistsError e
            then if bool_decide (tail = ".") then (inr (), w')
                 else mkdir_exist_ok name exist_ok w'
            else (inl (add_frames recursion_frame e), w')
        | (inr _, w') =>
            if bool_decide (tail = ".") then (inr (), w')
            else mkdir_exist_ok name exist_ok w'
        end
      else mkdir_exist_ok name exist_ok w
  end.

Definition makedirs (name : string) (exist_ok : bool) (w : World) : (exn + unit) * World :=
  makedirs_rec (S (String.length name)) name exist_ok w.

(** ** shutil.copy2 = copyfile, then copystat *)

Definition new_file_stat (w : World) : stat := mkStat 420 (clock w).

(** [os.path.samefile], false when either [stat] fails. *)
Definition samefile (src dst : string) (w : World) : bool :=
  match lookup w src, lookup w dst with
  | At k _, At k' _ => bool_decide (k = k')
  | _, _ => false
  end.

(** [shutil.copyfile]: refuse the same file, open [src] for reading, create
    or truncate [dst], write. *)
Definition copyfile (src dst : string) (w : World) : (exn + unit) * World :=
  if samefile src dst w then (inl (SameFileError src dst), w)
  else
    match lookup w src with
    | At _ Dir => (inl (IsADirectoryError src EmptyString), w)
    | Absent _ | NoEnt => (inl (FileNotFoundError src EmptyString), w)
    | NotDir => (inl (NotADirectoryError src EmptyString), w)
    | At _ (File data _) =>
        if ends_with_sep dst
        then
          if os_path_exists w dst then (inl (IsADirectoryError dst EmptyString), w)
          else (inl (Exception "FileNotFoundError"
                       ("Directory does not exist: " +:+ dst) EmptyString), w)
        else
          match walk_path w dst with
          | At _ Dir => (inl (IsADirectoryError dst EmptyString), w)
          | At k (File _ old) =>
              (inr (), with_fs w (<[k := File data (mkStat (st_mode old) (clock w))]> (fs w)))
          | Absent k => (inr (), with_fs w (<[k := File data (new_file_stat w)]> (fs w)))
          | NoEnt => (inl (FileNotFoundError dst EmptyString), w)
          | NotDir => (inl (NotADirectoryError dst EmptyString), w)
          end
    end.

(** [shutil.copystat]: permission bits and times of [src] onto [dst]. *)
Definition copystat (src dst : string) (w : World) : (exn + unit) * World :=
  match lookup w src with
  | At _ (File _ m) =>
      match lookup w dst with
      | At k (File data _) => (inr (), with_fs w (<[k := File data m]> (fs w)))
      | At _ Dir => (inr (), w)
      | Absent _ | NoEnt => (inl (FileNotFoundError dst EmptyString), w)
      | NotDir => (inl (NotADirectoryError dst EmptyString), w)
      end
  | At _ Dir => (inr (), w)
  | Absent _ | NoEnt => (inl (FileNotFoundError src EmptyString), w)
  | NotDir => (inl (NotADirectoryError src EmptyString), w)
  end.

(** A directory as [dst] means: into that directory, under the name of [src]. *)
Definition copy2 (src dst : string) (w : World) : (exn + unit) * World :=
  let dst' := if is_dir w dst then os_path_join dst (basename src) else dst in
  match copyfile src dst' w with
  | (inl e, w') => (inl e, w')
  | (inr _, w') => copystat src dst' w'
  end.

(** [from huggingface_hub import hf_hub_download] *)
Definition import_hub (w : World) : (exn + unit) * World :=
  if hub_installed w then (inr (), w) else (inl ModuleNotFoundError, w).

(** ** Standard output: UTF-8, strict *)

(** The strings of the model are byte strings.  CPython decodes the
    arguments as UTF-8 and turns every byte that is not part of a well-formed
    sequence into a lone surrogate, which the strict encoder of standard
    output refuses. *)
Definition bytes_of (s : string) : list N := N_of_ascii <$> String.list_ascii_of_string s.

Definition between (lo hi x : N) : bool := ((lo <=? x) && (x <=? hi))%N.

Definition continuation (b : N) : bool := between 128 191 b.

(** How many bytes follow the lead byte [b] in a well-formed sequence that
    starts with it, if [rest] continues one. *)
Definition sequence_tail (b : N) (rest : list N) : option nat :=
  match rest with
  | c1 :: rest1 =>
      if between 194 223 b then (if continuation c1 then Some 1%nat else None)
      else
        match rest1 with
        | c2 :: rest2 =>
            if (between 225 236 b || between 238 239 b) && continuation c1 && continuation c2
               || (b =? 224)%N && between 160 191 c1 && continuation c2
               || (b =? 237)%N && between 128 159 c1 && continuation c2
            then Some 2%nat
            else
              match rest2 with
              | c3 :: _ =>
                  if (between 241 243 b && continuation c1
                      || (b =? 240)%N && between 144 191 c1
                      || (b =? 244)%N && between 128 143 c1)
                     && continuation c2 && continuation c3
                  then Some 3%nat else None
              | [] => None
              end
        | [] => None
        end
  | [] => None
  end.

(** The characters of the decoded argument: [None] for a character that
    encodes, [Some b] for the lone surrogate that stands for the byte [b]. *)
Fixpoint decode_units (fuel : nat) (bs : list N) : list (option N) :=
  match fuel, bs with
  | S fuel', b :: rest =>
      if (b <? 128)%N then None :: decode_units fuel' rest
      else match sequence_tail b rest with
           | Some n => None :: decode_units fuel' (drop n rest)
           | None => Some b :: decode_units fuel' rest
           end
  | _, _ => []
  end.

Definition hex_digit (n : N) : string :=
  String (default "0"%char (String.list_ascii_of_string "0123456789abcdef" !! N.to_nat n)) EmptyString.

(** The characters before the first surrogate, and the bytes of the run of
    surrogates that starts a list. *)
Fixpoint encodable_prefix (units : list (option N)) : nat :=
  match units with
  | None :: rest => S (encodable_prefix rest)
  | _ => 0
  end.

Fixpoint surrogate_run (units : list (option N)) : list N :=
  match units with
  | Some b :: rest => b :: surrogate_run rest
  | _ => []
  end.

(** [str] of the [UnicodeEncodeError] for the first run of surrogates. *)
Definition encode_error (units : list (option N)) : option exn :=
  let before := encodable_prefix units in
  match surrogate_run (drop before units) with
  | [] => None
  | b :: others =>
      let where_ :=
        match others with
        | [] =>
            "character '\udc" +:+ hex_digit (b / 16) +:+ hex_digit (b mod 16)
              +:+ "' in position " +:+ pretty before
        | _ :: _ =>
            "characters in position " +:+ pretty before +:+ "-"
              +:+ pretty (before + List.length others)%nat
        end in
      Some (Exception "UnicodeEncodeError"
              ("'utf-8' codec can't encode " +:+ where_ +:+ ": surrogates not allowed")
              EmptyString)
  end.

Definition stdout_write (s : string) : option exn :=
  encode_error (decode_units (String.length s) (bytes_of s)).

(** ** The [OS] this filesystem gives the script *)

Definition hub_client : Type := DownloadRequest → World → (exn + string) * World.

(** [os.makedirs] as called on line 15: an exception that leaves it carries
    the entries of the script above those of [os.makedirs]. *)
Definition makedirs_from_script (name : string) (exist_ok : bool) (w : World)
  : (exn + unit) * World :=
  match makedirs name exist_ok w with
  | (inl e, w') => (inl (add_frames (makedirs_frames (script_file w)) e), w')
  | (inr u, w') => (inr u, w')
  end.

Definition posix_os (client : hub_client) : OS World :=
  {| os_makedirs := makedirs_from_script;
     import_huggingface_hub := import_hub;
     hf_hub_download := client;
     os_path_abspath := λ p w, (inr (abspath w p), w);
     shutil_copy2 := copy2;
     sys_stdout_write := stdout_write |}.

(** The script as a process on this filesystem. *)
Definition run (client : hub_client) (argv : list string) (w : World) : Process :=
  @Script.run World (posix_os client) argv w.

Definition client_outcome (client : hub_client) (out_dir : string) (w : World)
  : option ((exn + string) * World) :=
  @Script.client_outcome World (posix_os client) out_dir w.

(** ** Clients to run the script against *)

(** The key a path has when every directory on its way exists. *)
Definition lexical_key (w : World) (p : string) : list string :=
  components (abspath w p).

(** Store [n] under key [k], with every directory above it. *)
Definition put_node (k : list string) (n : node) (f : gmap (list string) node)
  : gmap (list string) node :=
  <[k := n]> (foldr (λ i g, <[take i k := Dir]> g) f (seq 1 (List.length k - 1))).

(** A client that leaves the artifact at [rel] below the local directory and
    returns that path. *)
Definition storing_client (rel data : string) (meta : stat) : hub_client :=
  λ req w,
    let p := os_path_join (local_dir req) rel in
    (inr p, with_fs w (put_node (lexical_key w p) (File data meta) (fs w))).

(** A client whose call raises [e]. *)
Definition failing_client (e : exn) : hub_client := λ _ w, (inl e, w).

(** The two layouts of the example scenarios: the file directly in the local
    directory, or below a snapshot directory. *)
Definition artifact : string := "{}" +:+ nl.
Definition artifact_stat : stat := mkStat 384 1718000000.
Definition direct_client : hub_client :=
  storing_client "autocodebench.jsonl" artifact artifact_stat.
Definition nested_client : hub_client :=
  storing_client "snapshots/abc/autocodebench.jsonl" artifact artifact_stat.

Definition script_name : string := "download_dataset.py".

Definition script_path : string := "/home/user/download_dataset.py".

Definition fresh_world : World :=
  mkWorld ∅ "/home/user" 1730000000 true script_path.

Definition world_without_hub : World :=
  mkWorld ∅ "/home/user" 1730000000 false script_path.

(** The current directory exists. *)
Definition home_world : World :=
  mkWorld {[ ["home"] := Dir; ["home"; "user"] := Dir ]}
    "/home/user" 1730000000 true script_path.

(** Somebody made a directory where the artifact is supposed to go. *)
Definition world_with_directory_at_target : World :=
  mkWorld {[ ["tmp"] := Dir;
             ["tmp"; "ds2"] := Dir;
             ["tmp"; "ds2"; "autocodebench.jsonl"] := Dir ]}
    "/home/user" 1730000000 true script_path.

(** A regular file where the output directory is supposed to go. *)
Definition world_with_file_in_the_way : World :=
  mkWorld {[ ["tmp"] := Dir; ["tmp"; "f"] := File "x" (mkStat 420 1700000000) ]}
    "/home/user" 1730000000 true script_path.

End Posix.

(** * A scripted test double

    Every operation answers what the scenario says; there is no state, and
    standard output accepts every text. *)
Module Double.

Record scenario := mkScenario {
  on_makedirs : exn + unit;
  on_import : exn + unit;
  on_download : exn + string;
  on_copy2 : exn + unit
}.

Definition scripted_os (s : scenario) : OS unit :=
  {| os_makedirs := λ _ _ w, (on_makedirs s, w);
     import_huggingface_hub := λ w, (on_import s, w);
     hf_hub_download := λ _ w, (on_download s, w);
     os_path_abspath := λ p w, (inr (Posix.abspath_in "/" p), w);
     shutil_copy2 := λ _ _ w, (on_copy2 s, w);
     sys_stdout_write := λ _, None |}.

Definition run (s : scenario) (argv : list string) : Script.Process :=
  @Script.run unit (scripted_os s) argv ().

(** The copy runs out of disk space after a successful download. *)
Definition disk_full : scenario :=
  {| on_makedirs := inr ();
     on_import := inr ();
     on_download := inr "/tmp/ds/.cache/abc/autocodebench.jsonl";
     on_copy2 := inl (Exception "OSError" "[Errno 28] No space left on device" EmptyString) |}.

(** The output directory cannot be created: [mkdir] is refused. *)
Definition read_only_parent : scenario :=
  {| on_makedirs :=
       inl (Posix.os_error "PermissionError" "13" "Permission denied" "/srv/ds"
              (Posix.makedirs_frames Posix.script_path +:+ Posix.mkdir_frame));
     on_import := inr ();
     on_download := inr "/srv/ds/autocodebench.jsonl";
     on_copy2 := inr () |}.

End Double.

(** * The script on an arbitrary operating system *)
Section ScriptFacts.
Import Script.
Context {W : Type} `{!OS W}.
Implicit Types (argv : list string) (w : W) (st : @State W) (e : exn) (d : string).

Lemma main_with_arg argv d st :
  argv !! 1%nat = Some d → main argv st = fetch d st.
Proof.
  intros Hd. unfold main.
  assert (¬ (length argv < 2)%nat) as Hlen
    by (apply lookup_lt_Some in Hd; lia).
  rewrite (bool_decide_eq_false_2 _ Hlen), Hd. reflexivity.
Qed.

Lemma main_without_arg argv st :
  (length argv < 2)%nat →
  main argv st =
    (SysExit 1, mkState (world st) (trace st) (stdout st) (stderr st +:+ usage +:+ nl)).
Proof.
  intros Hlen. unfold main. rewrite (bool_decide_eq_true_2 _ Hlen). reflexivity.
Qed.

Lemma place_step_spec path out st :
  place_step path out st =
    (completion_of (place path out (world st)).1,
     mkState (place path out (world st)).2
       (trace st ++ place_events path out (world st)) (stdout st) (stderr st)).
Proof.
  unfold place_step, call, perform, mbind, mret, M_bind, M_ret.
  unfold place, place_events. destruct st as [w tr so se]; simpl.
  destruct (os_path_abspath path w) as [[e|a] w1]; simpl; [done|].
  destruct (os_path_abspath out w1) as [[e|b] w2]; simpl;
    rewrite <- ?(assoc_L (++)); simpl; [done|].
  destruct (bool_decide (a ≠ b)); simpl; [|done].
  destruct (shutil_copy2 path out w2) as [[e|[]] w3]; simpl;
    rewrite <- ?(assoc_L (++)); done.
Qed.

(** The [try] statement, case by case. *)
Lemma transfer_spec d st :
  transfer d st =
    match import_huggingface_hub (world st) with
    | (inl e, w1) =>
        (SysExit 2, mkState w1 (trace st ++ [EvImportHub]) (stdout st)
                      (stderr st +:+ str e +:+ nl))
    | (inr _, w1) =>
        match hf_hub_download (request d) w1 with
        | (inl e, w2) =>
            (SysExit 2, mkState w2 (trace st ++ [EvImportHub; EvDownload (request d)])
                          (stdout st) (stderr st +:+ str e +:+ nl))
        | (inr path, w2) =>
            let tr := trace st ++ [EvImportHub; EvDownload (request d)]
                        ++ place_events path (canonical d) w2 in
            match place path (canonical d) w2 with
            | (inl e, w3) =>
                (SysExit 2, mkState w3 tr (stdout st) (stderr st +:+ str e +:+ nl))
            | (inr _, w3) =>
                match sys_stdout_write (canonical d) with
                | Some e =>
                    (SysExit 2, mkState w3 tr (stdout st) (stderr st +:+ str e +:+ nl))
                | None =>
                    (Normal (),
                     mkState w3 tr (stdout st +:+ canonical d +:+ nl) (stderr st))
                end
            end
        end
    end.
Proof.
  unfold transfer, try_except, try_body.
  unfold mbind at 1. unfold M_bind at 1. unfold call at 1. simpl.
  destruct (import_huggingface_hub (world st)) as [[e|[]] w1]; simpl; [done|].
  unfold mbind at 1. unfold M_bind at 1. unfold call at 1. simpl.
  destruct (hf_hub_download (request d) w1) as [[e|path] w2]; simpl.
  { rewrite <- (assoc_L (++)). done. }
  unfold mbind at 1. unfold M_bind at 1. rewrite place_step_spec. simpl.
  destruct (place path (canonical d) w2) as [[e|[]] w3]; simpl;
    rewrite <- !(assoc_L (++)); [done|].
  unfold print. simpl. destruct (sys_stdout_write (canonical d)); done.
Qed.

Lemma fetch_spec d st :
  fetch d st =
    match os_makedirs d true (world st) with
    | (inl e, w0) =>
        (Raised e, mkState w0 (trace st ++ [EvMakedirs d true]) (stdout st) (stderr st))
    | (inr _, w0) =>
        transfer d (mkState w0 (trace st ++ [EvMakedirs d true]) (stdout st) (stderr st))
    end.
Proof.
  unfold fetch. unfold mbind, M_bind, call. simpl.
  destruct (os_makedirs d true (world st)) as [[e|[]] w0]; done.
Qed.

(** Every way a run with an argument can go. *)
Lemma run_with_arg argv d w :
  argv !! 1%nat = Some d →
  run argv w =
    match os_makedirs d true w with
    | (inl e, w0) => mkProcess EmptyString (traceback e) 1 [EvMakedirs d true] w0
    | (inr _, w0) =>
        match import_huggingface_hub w0 with
        | (inl e, w1) =>
            mkProcess EmptyString (str e +:+ nl) 2 [EvMakedirs d true; EvImportHub] w1
        | (inr _, w1) =>
            match hf_hub_download (request d) w1 with
            | (inl e, w2) =>
                mkProcess EmptyString (str e +:+ nl) 2
                  [EvMakedirs d true; EvImportHub; EvDownload (request d)] w2
            | (inr path, w2) =>
                let tr := [EvMakedirs d true; EvImportHub; EvDownload (request d)]
                            ++ place_events path (canonical d) w2 in
                match place path (canonical d) w2 with
                | (inl e, w3) => mkProcess EmptyString (str e +:+ nl) 2 tr w3
                | (inr _, w3) =>
                    match sys_stdout_write (canonical d) with
                    | Some e => mkProcess EmptyString (str e +:+ nl) 2 tr w3
                    | None => mkProcess (canonical d +:+ nl) EmptyString 0 tr w3
                    end
                end
            end
        end
    end.
Proof.
  intros Hd. unfold run. rewrite (main_with_arg _ _ _ Hd), fetch_spec. simpl.
  destruct (os_makedirs d true w) as [[e|[]] w0]; [done|].
  rewrite transfer_spec. simpl.
  destruct (import_huggingface_hub w0) as [[e|[]] w1]; [done|].
  destruct (hf_hub_download (request d) w1) as [[e|path] w2]; [done|].
  simpl. destruct (place path (canonical d) w2) as [[e|[]] w3]; [done|].
  destruct (sys_stdout_write (canonical d)); done.
Qed.

Lemma run_without_arg argv w :
  (length argv < 2)%nat →
  run argv w = mkProcess EmptyString (usage +:+ nl) 1 [] w.
Proof. intros Hlen. unfold run. rewrite main_without_arg by done. done. Qed.

Lemma client_outcome_Some d w r :
  client_outcome d w = Some r →
  ∃ w0 w1, os_makedirs d true w = (inr (), w0)
         ∧ import_huggingface_hub w0 = (inr (), w1)
         ∧ hf_hub_download (request d) w1 = r.
Proof.
  unfold client_outcome.
  destruct (os_makedirs d true w) as [[e|[]] w0]; [done|].
  destruct (import_huggingface_hub w0) as [[e|[]] w1] eqn:Him; [done|].
  intros [= <-]. by exists w0, w1.
Qed.

(** A run with an argument, after a directory step that returned, in terms
    of how the body of the [try] ends. *)
Lemma run_by_try_result argv d w w0 :
  argv !! 1%nat = Some d →
  os_makedirs d true w = (inr (), w0) →
  p_world (run argv w) = (try_result d w0).2
  ∧ match (try_result d w0).1 with
    | inl e =>
        p_exit (run argv w) = 2
        ∧ p_stdout (run argv w) = EmptyString
        ∧ p_stderr (run argv w) = str e +:+ nl
    | inr _ =>
        p_exit (run argv w) = 0
        ∧ p_stdout (run argv w) = canonical d +:+ nl
        ∧ p_stderr (run argv w) = EmptyString
    end.
Proof.
  intros Hd Hmk. rewrite (run_with_arg _ _ _ Hd), Hmk. unfold try_result.
  destruct (import_huggingface_hub w0) as [[e|[]] w1]; [done|].
  destruct (hf_hub_download (request d) w1) as [[e|path] w2]; [done|].
  simpl. destruct (place path (canonical d) w2) as [[e|[]] w3]; [done|].
  destruct (sys_stdout_write (canonical d)); done.
Qed.

(** C1 (amended): when the client returns and neither lines 27-29 nor the
    [print] of line 30 raise, standard output is the path
    [os.path.join(out_dir, "autocodebench.jsonl")] followed by a newline and
    the exit code is 0. *)
Theorem success_prints_canonical_path argv d w path w1 w2 :
  argv !! 1%nat = Some d →
  client_outcome d w = Some (inr path, w1) →
  place path (os_path_join d "autocodebench.jsonl") w1 = (inr (), w2) →
  sys_stdout_write (os_path_join d "autocodebench.jsonl") = None →
  p_stdout (run argv w) = os_path_join d "autocodebench.jsonl" +:+ nl
  ∧ p_exit (run argv w) = 0.
Proof.
  intros Hd Hc Hp Hw. apply client_outcome_Some in Hc as (w0 & w0' & Hmk & Him & Hdl).
  rewrite (run_with_arg _ _ _ Hd), Hmk, Him, Hdl. simpl.
  unfold canonical. rewrite Hp, Hw. done.
Qed.

(** C3: when the client call raises, or the client returns and the copy step
    of lines 27-29 raises, the process exits with code 2, standard error is
    [str(e)] and a newline, and standard output is empty. *)
Theorem transfer_errors_exit_2 argv d w e w' :
  argv !! 1%nat = Some d →
  client_outcome d w = Some (inl e, w')
  ∨ (∃ path w1, client_outcome d w = Some (inr path, w1)
              ∧ place path (canonical d) w1 = (inl e, w')) →
  p_exit (run argv w) = 2
  ∧ p_stderr (run argv w) = str e +:+ nl
  ∧ p_stdout (run argv w) = EmptyString.
Proof.
  intros Hd [Hc | (path & w1 & Hc & Hp)];
    apply client_outcome_Some in Hc as (w0 & w0' & Hmk & Him & Hdl);
    rewrite (run_with_arg _ _ _ Hd), Hmk, Him, Hdl; simpl; [done|].
  rewrite Hp. done.
Qed.

(** C4: without an argument the process exits with code 1 after printing the
    usage line on standard error; it has called nothing outside the
    interpreter (no client, no directory creation) and the world is as it
    was. *)
Theorem no_argument_is_usage_error argv w :
  (length argv < 2)%nat →
  run argv w = mkProcess EmptyString (usage +:+ nl) 1 [] w.
Proof.
  intros Hlen. unfold run, main.
  rewrite (bool_decide_eq_true_2 _ Hlen).
  reflexivity.
Qed.

(** C6 (amended): in a run whose directory step does not raise, the script
    reports exactly once.  Without an argument: the usage line and a newline
    on standard error, nothing on standard output, exit code 1.  When a
    statement of the [try] raises: [str(e)] and a newline on standard error
    for the exception [e] that statement raised, nothing on standard output,
    exit code 2.  Otherwise: the canonical path and a newline on standard
    output, nothing on standard error, exit code 0. *)
Theorem one_report_per_run argv w :
  (∀ d, argv !! 1%nat = Some d → (os_makedirs d true w).1 = inr ()) →
  match argv !! 1%nat with
  | None =>
      p_exit (run argv w) = 1
      ∧ p_stdout (run argv w) = EmptyString
      ∧ p_stderr (run argv w) = usage +:+ nl
  | Some d =>
      match (try_result d (os_makedirs d true w).2).1 with
      | inl e =>
          p_exit (run argv w) = 2
          ∧ p_stdout (run argv w) = EmptyString
          ∧ p_stderr (run argv w) = str e +:+ nl
      | inr _ =>
          p_exit (run argv w) = 0
          ∧ p_stdout (run argv w) = canonical d +:+ nl
          ∧ p_stderr (run argv w) = EmptyString
      end
  end.
Proof.
  intros Hmk. destruct (argv !! 1%nat) as [d|] eqn:Hd.
  - specialize (Hmk d eq_refl).
    destruct (os_makedirs d true w) as [[e|[]] w0] eqn:Hmk0; [done|].
    exact (proj2 (run_by_try_result _ _ _ _ Hd Hmk0)).
  - apply lookup_ge_None in Hd. rewrite run_without_arg by lia. done.
Qed.

Lemma place_events_no_download path out w :
  List.filter is_download (place_events path out w) = [].
Proof.
  unfold place_events.
  destruct (os_path_abspath path w) as [[?|a] w1]; [done|].
  destruct (os_path_abspath out w1) as [[?|b] w2]; [done|].
  destruct (bool_decide (a ≠ b)); done.
Qed.

(** C8: a run that gets to line 19 (the directory step and the import
    returned) calls the client exactly once, with the repository
    [tencent/AutoCodeBenchmark], the file [autocodebench.jsonl], the kind
    [dataset], [out_dir] as local directory and symlinks off.  The call is
    made on the world the import left; when it raises the run ends in the
    world it left, when it returns lines 27-29 start from that world with the
    path it returned. *)
Theorem client_called_exactly_once argv d w w0 w1 :
  argv !! 1%nat = Some d →
  os_makedirs d true w = (inr (), w0) →
  import_huggingface_hub w0 = (inr (), w1) →
  let req := {| repo_id := "tencent/AutoCodeBenchmark";
                filename := "autocodebench.jsonl";
                repo_type := "dataset";
                local_dir := d;
                local_dir_use_symlinks := false |} in
  List.filter is_download (p_trace (run argv w)) = [EvDownload req]
  ∧ match hf_hub_download req w1 with
    | (inl e, w2) =>
        p_world (run argv w) = w2
        ∧ p_stderr (run argv w) = str e +:+ nl
        ∧ p_trace (run argv w) = [EvMakedirs d true; EvImportHub; EvDownload req]
    | (inr path, w2) =>
        p_world (run argv w) = (place path (canonical d) w2).2
        ∧ p_trace (run argv w) =
            [EvMakedirs d true; EvImportHub; EvDownload req]
              ++ place_events path (canonical d) w2
    end.
Proof.
  intros Hd Hmk Him req. rewrite (run_with_arg _ _ _ Hd), Hmk, Him.
  change (request d) with req.
  destruct (hf_hub_download req w1) as [[e|path] w2]; [done|].
  simpl. destruct (place path (canonical d) w2) as [[e|[]] w3]; simpl;
    [|destruct (sys_stdout_write (canonical d)); simpl];
    rewrite place_events_no_download; done.
Qed.

(** C9: with the empty string as argument the run is not a usage error: its
    first call is [os.makedirs] on the empty string, and an exception raised
    there leaves [main] uncaught, with nothing printed by the script; the
    interpreter then prints the traceback. *)
Theorem empty_output_dir_reaches_makedirs prog w :
  head (p_trace (run [prog; EmptyString] w)) = Some (EvMakedirs EmptyString true)
  ∧ match os_makedirs EmptyString true w with
    | (inl e, w') =>
        main [prog; EmptyString] (init w) =
          (Raised e, mkState w' [EvMakedirs EmptyString true] EmptyString EmptyString)
        ∧ run [prog; EmptyString] w =
            mkProcess EmptyString (traceback e) 1 [EvMakedirs EmptyString true] w'
    | (inr _, _) => True
    end.
Proof.
  assert ([prog; EmptyString] !! 1%nat = Some EmptyString) as Hd by done.
  rewrite (run_with_arg _ _ _ Hd), (main_with_arg _ _ _ Hd), fetch_spec. simpl.
  destruct (os_makedirs EmptyString true w) as [[e|[]] w0]; [done|].
  split; [|done].
  destruct (import_huggingface_hub w0) as [[e|[]] w1]; [done|].
  destruct (hf_hub_download (request EmptyString) w1) as [[e|path] w2]; [done|].
  simpl. destruct (place path (canonical EmptyString) w2) as [[e|[]] w3]; [done|].
  destruct (sys_stdout_write (canonical EmptyString)); done.
Qed.

(** C10: when the import of line 18 raises, the handler of line 31 catches
    it: exit code 2, [str(e)] and a newline on standard error, nothing on
    standard output, and the client is never called. *)
Theorem import_error_is_reported argv d w w0 e w1 :
  argv !! 1%nat = Some d →
  os_makedirs d true w = (inr (), w0) →
  import_huggingface_hub w0 = (inl e, w1) →
  run argv w =
    mkProcess EmptyString (str e +:+ nl) 2 [EvMakedirs d true; EvImportHub] w1.
Proof.
  intros Hd Hmk Him. rewrite (run_with_arg _ _ _ Hd), Hmk, Him. done.
Qed.

(** The three ways a run ends, with everything the caller can observe. *)
Lemma run_outcomes argv w :
  (p_exit (run argv w) = 0 ∧ p_stderr (run argv w) = EmptyString
   ∧ ∃ d, argv !! 1%nat = Some d ∧ p_stdout (run argv w) = canonical d +:+ nl)
  ∨ (p_exit (run argv w) = 1 ∧ p_stdout (run argv w) = EmptyString
     ∧ ((length argv < 2)%nat ∧ p_stderr (run argv w) = usage +:+ nl
        ∧ p_trace (run argv w) = [] ∧ p_world (run argv w) = w
        ∨ ∃ d e w0, argv !! 1%nat = Some d ∧ os_makedirs d true w = (inl e, w0)
                  ∧ p_stderr (run argv w) = traceback e
                  ∧ p_trace (run argv w) = [EvMakedirs d true]
                  ∧ p_world (run argv w) = w0))
  ∨ (p_exit (run argv w) = 2 ∧ p_stdout (run argv w) = EmptyString
     ∧ ∃ d e w0, argv !! 1%nat = Some d ∧ os_makedirs d true w = (inr (), w0)
               ∧ p_stderr (run argv w) = str e +:+ nl
               ∧ ∃ rest, p_trace (run argv w) = EvMakedirs d true :: EvImportHub :: rest).
Proof.
  destruct (argv !! 1%nat) as [d|] eqn:Hd.
  - rewrite (run_with_arg _ _ _ Hd).
    destruct (os_makedirs d true w) as [[e|[]] w0] eqn:Hmk.
    { right; left. simpl. repeat split. right. by exists d, e, w0. }
    destruct (import_huggingface_hub w0) as [[e|[]] w1].
    { right; right. simpl. repeat split. exists d, e, w0. eauto 10. }
    destruct (hf_hub_download (request d) w1) as [[e|path] w2].
    { right; right. simpl. repeat split. exists d, e, w0. eauto 10. }
    simpl. destruct (place path (canonical d) w2) as [[e|[]] w3].
    { right; right. simpl. repeat split. exists d, e, w0. eauto 10. }
    destruct (sys_stdout_write (canonical d)) as [e|].
    { right; right. simpl. repeat split. exists d, e, w0. eauto 10. }
    left. simpl. eauto.
  - apply lookup_ge_None in Hd. rewrite run_without_arg by lia.
    right; left. simpl. repeat split. left. repeat split. lia.
Qed.

(** X3: the calls of a run are an initial part of: [makedirs], the import, the
    download, [abspath] of the path the client returned, [abspath] of the
    canonical path, [copy2] from the one to the other.  Nothing is called
    twice and nothing out of order. *)
Theorem calls_in_source_order argv d w :
  argv !! 1%nat = Some d →
  p_trace (run argv w) `prefix_of` call_sequence d (returned_path d w).
Proof.
  intros Hd. rewrite (run_with_arg _ _ _ Hd). unfold call_sequence, returned_path.
  unfold client_outcome.
  destruct (os_makedirs d true w) as [[e|[]] w0]; [by eexists|].
  destruct (import_huggingface_hub w0) as [[e|[]] w1]; [by eexists|].
  destruct (hf_hub_download (request d) w1) as [[e|path] w2]; [by eexists|].
  simpl.
  destruct (place path (canonical d) w2) as [[e|[]] w3] eqn:Hp;
    [|destruct (sys_stdout_write (canonical d))]; simpl;
    unfold place_events;
    (destruct (os_path_abspath path w2) as [[?|a] w4]; [by eexists|]);
    (destruct (os_path_abspath (canonical d) w4) as [[?|b] w5]; [by eexists|]);
    case_bool_decide; by eexists.
Qed.

(** X4: when the returned path and the canonical path have the same absolute
    form, the script copies nothing: the run makes five calls, none of them
    [copy2], and ends in the world the second [abspath] left; it succeeds
    when standard output accepts the canonical path. *)
Theorem file_in_place_is_not_copied argv d w path w1 a w2 w3 :
  argv !! 1%nat = Some d →
  client_outcome d w = Some (inr path, w1) →
  os_path_abspath path w1 = (inr a, w2) →
  os_path_abspath (canonical d) w2 = (inr a, w3) →
  p_trace (run argv w) =
    [EvMakedirs d true; EvImportHub; EvDownload (request d);
     EvAbspath path; EvAbspath (canonical d)]
  ∧ p_world (run argv w) = w3
  ∧ (sys_stdout_write (canonical d) = None →
     p_exit (run argv w) = 0 ∧ p_stdout (run argv w) = canonical d +:+ nl).
Proof.
  intros Hd Hc Ha Hb.
  apply client_outcome_Some in Hc as (w0 & w0' & Hmk & Him & Hdl).
  rewrite (run_with_arg _ _ _ Hd), Hmk, Him, Hdl. simpl.
  unfold place, place_events. rewrite Ha, Hb.
  rewrite bool_decide_eq_false_2 by (intros Hne; by apply Hne).
  destruct (sys_stdout_write (canonical d)); done.
Qed.

(** X5: arguments after the first change nothing. *)
Theorem only_first_argument_matters prog d rest w :
  run (prog :: d :: rest) w = run [prog; d] w.
Proof.
  rewrite (run_with_arg (prog :: d :: rest) d w eq_refl).
  rewrite (run_with_arg [prog; d] d w eq_refl). done.
Qed.

(** X6: exit code 1 means that no transfer was attempted: either the argument
    was missing and nothing at all was called, or [os.makedirs] raised and it
    is the only call made. *)
Theorem exit_1_means_no_transfer argv w :
  p_exit (run argv w) = 1 →
  p_stdout (run argv w) = EmptyString
  ∧ ((length argv < 2)%nat ∧ p_stderr (run argv w) = usage +:+ nl
     ∧ p_trace (run argv w) = [] ∧ p_world (run argv w) = w
     ∨ ∃ d e w0, argv !! 1%nat = Some d ∧ os_makedirs d true w = (inl e, w0)
               ∧ p_stderr (run argv w) = traceback e
               ∧ p_trace (run argv w) = [EvMakedirs d true]
               ∧ p_world (run argv w) = w0).
Proof.
  intros Hx.
  destruct (run_outcomes argv w) as [(H & _) | [(_ & Ho & Hcase) | (H & _)]];
    [rewrite H in Hx; done | done | rewrite H in Hx; done].
Qed.

(** X7: exit code 2 only comes from the handler of line 31: the directory
    step had returned, the import was reached, and standard error is [str(e)]
    and a newline for some exception [e]. *)
Theorem exit_2_means_caught_exception argv w :
  p_exit (run argv w) = 2 →
  p_stdout (run argv w) = EmptyString
  ∧ ∃ d e w0, argv !! 1%nat = Some d ∧ os_makedirs d true w = (inr (), w0)
            ∧ p_stderr (run argv w) = str e +:+ nl
            ∧ ∃ rest, p_trace (run argv w) = EvMakedirs d true :: EvImportHub :: rest.
Proof.
  intros Hx.
  destruct (run_outcomes argv w) as [(H & _) | [(H & _) | (_ & Ho & Hcase)]];
    [rewrite H in Hx; done | rewrite H in Hx; done | done].
Qed.

(** X8: when the client raises, the run ends there: three calls, no retry, no
    clean-up, and the world is the one the client left. *)
Theorem client_failure_ends_the_run argv d w e w' :
  argv !! 1%nat = Some d →
  client_outcome d w = Some (inl e, w') →
  run argv w =
    mkProcess EmptyString (str e +:+ nl) 2
      [EvMakedirs d true; EvImportHub; EvDownload (request d)] w'.
Proof.
  intros Hd Hc. apply client_outcome_Some in Hc as (w0 & w0' & Hmk & Him & Hdl).
  rewrite (run_with_arg _ _ _ Hd), Hmk, Him, Hdl. done.
Qed.

(** X11: the [print] of line 30 is inside the [try].  When standard output
    refuses the canonical path, after the client returned and lines 27-29
    went through, the run is reported like a failed transfer: exit code 2,
    [str(e)] and a newline on standard error, nothing on standard output;
    the world is the one lines 27-29 left, with the file in place. *)
Theorem print_failure_is_reported argv d w path w1 w2 e :
  argv !! 1%nat = Some d →
  client_outcome d w = Some (inr path, w1) →
  place path (canonical d) w1 = (inr (), w2) →
  sys_stdout_write (canonical d) = Some e →
  run argv w =
    mkProcess EmptyString (str e +:+ nl) 2
      ([EvMakedirs d true; EvImportHub; EvDownload (request d)]
         ++ place_events path (canonical d) w1) w2.
Proof.
  intros Hd Hc Hp Hw. apply client_outcome_Some in Hc as (w0 & w0' & Hmk & Him & Hdl).
  rewrite (run_with_arg _ _ _ Hd), Hmk, Him, Hdl. simpl. rewrite Hp, Hw. done.
Qed.

End ScriptFacts.

(** * Paths as strings: [os.path.split] and the names of a path *)
Section PathFacts.
Import Script Posix.
Implicit Types (a b s p h t : string) (l : list string).

Lemma append_assoc a b s : (a +:+ b) +:+ s = a +:+ (b +:+ s).
Proof.
  induction a as [|c a IH]; [done|].
  change (String c ((a +:+ b) +:+ s) = String c (a +:+ (b +:+ s))). by rewrite IH.
Qed.

Lemma append_empty_r a : a +:+ EmptyString = a.
Proof.
  induction a as [|c a IH]; [done|].
  change (String c (a +:+ EmptyString) = String c a). by rewrite IH.
Qed.

Lemma append_cons c a b : String c a +:+ b = String c (a +:+ b).
Proof. done. Qed.

Lemma length_append a b : String.length (a +:+ b) = (String.length a + String.length b)%nat.
Proof.
  induction a as [|c a IH]; [done|]. rewrite append_cons. simpl. by rewrite IH.
Qed.

Lemma prefix_append a b : String.prefix a (a +:+ b) = true.
Proof.
  induction a as [|c a IH]; [by destruct b|].
  change (String.prefix (String c a) (String c (a +:+ b)) = true). simpl.
  destruct (ascii_dec c c); done.
Qed.

Lemma split_sep_nonempty s : split_sep s ≠ [].
Proof.
  destruct s as [|c s]; simpl; [done|].
  case_bool_decide; [done|]. by destruct (split_sep s).
Qed.

(** Splitting at a slash splits the list of components. *)
Lemma split_sep_app a b :
  split_sep (a +:+ String "/" b) = split_sep a ++ split_sep b.
Proof.
  induction a as [|c a IH]; [done|].
  rewrite append_cons. simpl. rewrite IH.
  case_bool_decide; [done|].
  pose proof (split_sep_nonempty a). by destruct (split_sep a).
Qed.

Lemma components_app a b :
  components (a +:+ String "/" b) = components a ++ components b.
Proof. unfold components. by rewrite split_sep_app, filter_app. Qed.

Lemma components_slash a : components (a +:+ "/") = components a.
Proof.
  change "/" with (String "/" EmptyString). rewrite components_app.
  unfold components at 2. simpl. rewrite filter_cons_False by (by intros []).
  by rewrite filter_nil, app_nil_r.
Qed.

(** What follows the last slash of [a/b] is what follows the last slash
    of [b]. *)
Lemma last_split_sep_append a b :
  (2 ≤ length (split_sep (a +:+ String "/" b)))%nat
  ∧ last (split_sep (a +:+ String "/" b)) = last (split_sep b).
Proof.
  rewrite split_sep_app.
  pose proof (split_sep_nonempty a). pose proof (split_sep_nonempty b).
  split.
  - rewrite length_app. destruct (split_sep a), (split_sep b); simpl; done || lia.
  - rewrite last_app. by destruct (last (split_sep b)) eqn:Hl;
      [|apply last_None in Hl].
Qed.

Lemma ends_with_sep_split a :
  ends_with_sep a = true → ∃ a', a = a' +:+ "/".
Proof.
  induction a as [|c a IH]; simpl; [done|].
  destruct a as [|c' a].
  - intros ->%bool_decide_eq_true. by exists EmptyString.
  - intros [a' Ha]%IH. exists (String c a'). rewrite append_cons. by rewrite Ha.
Qed.

Lemma ends_with_sep_append a : ends_with_sep (a +:+ "/") = true.
Proof.
  induction a as [|c a IH]; [done|].
  rewrite append_cons. simpl. rewrite IH.
  destruct (a +:+ "/") eqn:Ha; [by destruct a|done].
Qed.

(** A string without a slash is its own single component. *)
Lemma single_component_no_sep t :
  split_sep t = [t] → starts_with_sep t = false ∧ ends_with_sep t = false.
Proof.
  intros Ht. split.
  - destruct t as [|c t]; [done|]. simpl in *. case_bool_decide; [|done].
    pose proof (split_sep_nonempty t). destruct (split_sep t); simplify_eq.
  - destruct (ends_with_sep t) eqn:He; [|done].
    apply ends_with_sep_split in He as [a' ->].
    change "/" with (String "/" EmptyString) in Ht. rewrite split_sep_app in Ht.
    pose proof (split_sep_nonempty a'). simpl in Ht.
    destruct (split_sep a') as [|x [|y l]]; simplify_eq.
Qed.

Lemma components_single t :
  split_sep t = [t] → components t = if bool_decide (t = EmptyString) then [] else [t].
Proof.
  intros Ht. unfold components. rewrite Ht. case_bool_decide.
  - by rewrite filter_cons_False, filter_nil by (intros Hn; by apply Hn).
  - by rewrite filter_cons_True, filter_nil.
Qed.

Lemma split_last_sep_spec p h t :
  split_last_sep p = (h, t) →
  p = h +:+ t ∧ split_sep t = [t]
  ∧ (h = EmptyString ∨ ∃ h1, h = h1 +:+ "/").
Proof.
  revert h t. induction p as [|c p IH]; intros h t; simpl.
  { intros [= <- <-]. repeat split; auto. }
  destruct (split_last_sep p) as [h' t'] eqn:Hs.
  destruct (IH _ _ eq_refl) as (Hp & Ht & Hh).
  case_bool_decide as Hne.
  - intros [= <- <-]. rewrite append_cons, <- Hp. split; [done|]. split; [done|].
    right. destruct Hh as [?|[h1 ->]]; [done|]. by exists (String c h1).
  - assert (h' = EmptyString) as -> by (by destruct (decide (h' = EmptyString))).
    change (p = t') in Hp. subst p. case_bool_decide as Hc.
    + intros [= <- <-]. subst c. split; [done|]. split; [done|].
      right. by exists EmptyString.
    + intros [= <- <-]. split; [done|]. split; [|by left].
      simpl. rewrite bool_decide_eq_false_2 by done. by rewrite Ht.
Qed.

Lemma rstrip_sep_split s :
  ∃ k, split_sep s = split_sep (rstrip_sep s) ++ replicate k EmptyString.
Proof.
  induction s as [|c s [k IH]]; [by exists 0%nat|].
  simpl.
  destruct (decide (rstrip_sep s = EmptyString)) as [Hr|Hr];
    destruct (decide (c = "/"%char)) as [Hc|Hc];
    rewrite ?(bool_decide_eq_true_2 _ Hr), ?(bool_decide_eq_false_2 _ Hr),
      ?(bool_decide_eq_true_2 _ Hc), ?(bool_decide_eq_false_2 _ Hc); simpl;
    rewrite ?(bool_decide_eq_true_2 _ Hc), ?(bool_decide_eq_false_2 _ Hc).
  - exists (S k). rewrite IH, Hr. done.
  - exists k. rewrite IH, Hr. done.
  - exists k. by rewrite IH.
  - exists k. rewrite IH. pose proof (split_sep_nonempty (rstrip_sep s)).
    by destruct (split_sep (rstrip_sep s)).
Qed.

Lemma components_rstrip s : components (rstrip_sep s) = components s.
Proof.
  destruct (rstrip_sep_split s) as [k Hk]. unfold components.
  rewrite Hk, filter_app.
  assert (filter (λ c : string, c ≠ EmptyString) (replicate k EmptyString) = []) as ->.
  { clear Hk. induction k as [|k IH]; [done|]. simpl.
    rewrite filter_cons_False; [done|]. intros Hn. by apply Hn. }
  by rewrite app_nil_r.
Qed.

Lemma components_all_sep s : all_sep s = true → components s = [].
Proof.
  induction s as [|c s IH]; [done|]. simpl.
  intros [Hc Hs]%andb_true_iff. apply bool_decide_eq_true in Hc as ->.
  unfold components in *. simpl.
  rewrite filter_cons_False by (intros Hn; by apply Hn). by apply IH.
Qed.

Lemma rstrip_sep_empty s : rstrip_sep s = EmptyString ↔ all_sep s = true.
Proof.
  induction s as [|c s IH]; [done|]. simpl. split.
  - destruct (bool_decide (rstrip_sep s = EmptyString)) eqn:Hr; simpl; [|done].
    apply bool_decide_eq_true in Hr. case_bool_decide; [|done].
    intros _. simpl. by apply IH.
  - intros [Hc Hs]%andb_true_iff. apply IH in Hs. rewrite Hs. simpl.
    by rewrite Hc.
Qed.

Lemma rstrip_sep_length s : (String.length (rstrip_sep s) ≤ String.length s)%nat.
Proof.
  induction s as [|c s IH]; [done|]. simpl.
  destruct (bool_decide (rstrip_sep s = EmptyString) && bool_decide (c = "/"%char));
    simpl; lia.
Qed.

Lemma rstrip_sep_no_trailing s : ends_with_sep (rstrip_sep s) = false.
Proof.
  induction s as [|c s IH]; [done|]. simpl.
  destruct (bool_decide (rstrip_sep s = EmptyString)) eqn:Hr; simpl.
  - apply bool_decide_eq_true in Hr. case_bool_decide as Hc; [done|].
    rewrite Hr. simpl. by rewrite bool_decide_eq_false_2.
  - apply bool_decide_eq_false in Hr. simpl.
    destruct (rstrip_sep s); done.
Qed.

Lemma rstrip_sep_start s :
  all_sep s = false → starts_with_sep (rstrip_sep s) = starts_with_sep s.
Proof.
  destruct s as [|c s]; [done|]. intros Hall. simpl.
  destruct (bool_decide (rstrip_sep s = EmptyString) && bool_decide (c = "/"%char))
    eqn:Hb; [|done].
  apply andb_true_iff in Hb as [Hr Hc].
  apply bool_decide_eq_true in Hr. apply rstrip_sep_empty in Hr.
  simpl in Hall. by rewrite Hc, Hr in Hall.
Qed.

Lemma starts_with_sep_append a b :
  a ≠ EmptyString → starts_with_sep (a +:+ b) = starts_with_sep a.
Proof. by destruct a. Qed.

(** What [os.path.split] does to the names of a path. *)
Lemma os_path_split_spec p h t :
  os_path_split p = (h, t) →
  components p = components h ++ (if bool_decide (t = EmptyString) then [] else [t])
  ∧ starts_with_sep h = starts_with_sep p
  ∧ split_sep t = [t]
  ∧ (String.length h ≤ String.length p)%nat
  ∧ (t ≠ EmptyString → (String.length h < String.length p)%nat)
  ∧ (ends_with_sep h = true → all_sep h = true).
Proof.
  unfold os_path_split. destruct (split_last_sep p) as [h0 t0] eqn:Hs.
  intros [= <- <-]. apply split_last_sep_spec in Hs as (-> & Ht & Hh).
  pose proof (single_component_no_sep _ Ht) as [Hts _].
  assert (t0 ≠ EmptyString → (0 < String.length t0)%nat) as Hlen
    by (destruct t0; simpl; [done|lia]).
  destruct Hh as [-> | [h1 ->]].
  - change (EmptyString +:+ t0) with t0. simpl. rewrite (components_single _ Ht).
    repeat split; try done; try lia.
  - assert (components ((h1 +:+ "/") +:+ t0)
            = components (h1 +:+ "/") ++ (if bool_decide (t0 = EmptyString) then [] else [t0]))
      as Hcomp.
    { rewrite append_assoc. change ("/" +:+ t0) with (String "/" t0).
      rewrite components_app, components_slash, (components_single _ Ht). done. }
    assert (h1 +:+ "/" ≠ EmptyString) as Hne by (by destruct h1).
    rewrite (bool_decide_eq_true_2 _ Hne). simpl.
    destruct (all_sep (h1 +:+ "/")) eqn:Hall; simpl.
    + rewrite !length_append. split_and!; try done; try lia.
      * symmetry. by apply starts_with_sep_append.
      * intros Hn. specialize (Hlen Hn). lia.
    + pose proof (rstrip_sep_length (h1 +:+ "/")) as Hrl.
      rewrite components_rstrip. rewrite !length_append in *.
      split_and!; try done; try lia.
      * rewrite rstrip_sep_start by done. symmetry. by apply starts_with_sep_append.
      * intros Hn. specialize (Hlen Hn). lia.
      * by rewrite rstrip_sep_no_trailing.
Qed.

(** A head that [os.path.split] cannot split further has no names. *)
Lemma os_path_split_twice h h2 :
  (ends_with_sep h = true → all_sep h = true) →
  os_path_split h = (h2, EmptyString) →
  components h = [].
Proof.
  intros Hend. unfold os_path_split.
  destruct (split_last_sep h) as [h0 t0] eqn:Hs. intros [= _ ->].
  apply split_last_sep_spec in Hs as (Hh & _ & Hh0).
  rewrite append_empty_r in Hh. subst h0.
  destruct Hh0 as [-> | [h1 ->]]; [done|].
  apply components_all_sep, Hend, ends_with_sep_append.
Qed.

End PathFacts.

(** * Path lookup on the in-memory filesystem *)
Section WalkFacts.
Import Script Posix.
Implicit Types (f : gmap (list string) node) (cur k l comps : list string)
  (c : string) (w : World) (n : node).



Lemma walk_At_file f cur l k data meta :
  walk f cur l = At k (File data meta) → f !! k = Some (File data meta).
Proof.
  revert cur. induction l as [|c l IH]; intros cur; [done|].
  simpl. case_bool_decide; [apply IH|]. case_bool_decide; [apply IH|].
  destruct (f !! (cur ++ [c])) as [[|data' meta']|] eqn:Hk; [apply IH|..];
    destruct l; intros; simplify_eq; done.
Qed.

Lemma walk_Absent f cur l k : walk f cur l = Absent k → f !! k = None.
Proof.
  revert cur. induction l as [|c l IH]; intros cur; [done|].
  simpl. case_bool_decide; [apply IH|]. case_bool_decide; [apply IH|].
  destruct (f !! (cur ++ [c])) as [[|data' meta']|] eqn:Hk; [apply IH|..];
    destruct l; intros; simplify_eq; done.
Qed.


(** Writing a file at a key that holds no directory does not disturb the
    lookup of another entry. *)
Lemma walk_insert_file f cur l k k' n data meta :
  f !! k ≠ Some Dir → k' ≠ k →
  walk f cur l = At k' n → walk (<[k := File data meta]> f) cur l = At k' n.
Proof.
  intros Hk Hne. revert cur. induction l as [|c l IH]; intros cur; [done|].
  simpl. case_bool_decide; [apply IH|]. case_bool_decide; [apply IH|].
  destruct (decide (k = cur ++ [c])) as [->|Hne'].
  - destruct (f !! (cur ++ [c])) as [[|data' meta']|]; [done|..];
      destruct l; intros; simplify_eq.
  - rewrite lookup_insert_ne by done.
    destruct (f !! (cur ++ [c])) as [[|data' meta']|]; [apply IH|done..].
Qed.

(** After a file is written where the lookup ended, the lookup ends at that
    file. *)
Lemma walk_insert_target f cur l k data meta :
  f !! k ≠ Some Dir →
  (walk f cur l = Absent k ∨ ∃ data' meta', walk f cur l = At k (File data' meta')) →
  walk (<[k := File data meta]> f) cur l = At k (File data meta).
Proof.
  intros Hk. revert cur. induction l as [|c l IH]; intros cur.
  { intros [?|(? & ? & ?)]; done. }
  simpl. case_bool_decide; [apply IH|]. case_bool_decide; [apply IH|].
  destruct (decide (k = cur ++ [c])) as [->|Hne].
  - rewrite lookup_insert_eq.
    destruct (f !! (cur ++ [c])) as [[|data' meta']|]; [done|..];
      destruct l; intros [?|(? & ? & ?)]; simplify_eq; done.
  - rewrite lookup_insert_ne by done.
    destruct (f !! (cur ++ [c])) as [[|data' meta']|]; [apply IH|..];
      destruct l; intros [?|(? & ? & ?)]; simplify_eq.
Qed.






Lemma walk_path_with_fs w f p :
  p ≠ EmptyString → walk_path (with_fs w f) p = walk f (start w p) (components p).
Proof. intros Hp. unfold walk_path. by rewrite bool_decide_eq_false_2. Qed.

Lemma walk_path_nonempty w p :
  p ≠ EmptyString → walk_path w p = walk (fs w) (start w p) (components p).
Proof. intros Hp. unfold walk_path. by rewrite bool_decide_eq_false_2. Qed.




Lemma with_fs_with_fs w f f' : with_fs (with_fs w f) f' = with_fs w f'.
Proof. done. Qed.

End WalkFacts.

(** * os.makedirs on the in-memory filesystem *)
Section MakedirsFacts.
Import Script Posix.
Implicit Types (f : gmap (list string) node) (cur k l : list string)
  (w : World) (name head tail : string).





(** What the two calls of [os.path.split] at the top of [os.makedirs] leave
    in [head] and [tail]. *)
Lemma makedirs_split name head tail :
  makedirs_head_tail name = (head, tail) →
  components name
    = components head ++ (if bool_decide (tail = EmptyString) then [] else [tail])
  ∧ starts_with_sep head = starts_with_sep name
  ∧ (tail ≠ EmptyString → (String.length head < String.length name)%nat)
  ∧ (tail = EmptyString → components name = []).
Proof.
  unfold makedirs_head_tail.
  destruct (os_path_split name) as [h t] eqn:Hs.
  apply os_path_split_spec in Hs as (Hc & Hst & Ht & Hle & Hlt & Hend).
  destruct (decide (t = EmptyString)) as [Hte|Hte].
  - rewrite (bool_decide_eq_true_2 _ Hte) in *. subst t.
    rewrite app_nil_r in Hc. intros Hs2.
    pose proof (os_path_split_spec _ _ _ Hs2) as (Hc2 & Hst2 & Ht2 & Hle2 & Hlt2 & _).
    split_and!.
    + by rewrite Hc.
    + by rewrite Hst2.
    + intros Hn. specialize (Hlt2 Hn). lia.
    + intros ->. rewrite Hc. by eapply os_path_split_twice.
  - rewrite (bool_decide_eq_false_2 _ Hte) in *. intros [= <- <-].
    rewrite (bool_decide_eq_false_2 _ Hte). split_and!; done.
Qed.


(** The bound on the recursion is never met: any two bounds above the length
    of the name give the same result. *)
Lemma makedirs_rec_bound fuel fuel' name exist_ok w :
  (String.length name < fuel)%nat → (String.length name < fuel')%nat →
  makedirs_rec fuel name exist_ok w = makedirs_rec fuel' name exist_ok w.
Proof.
  revert fuel' name w. induction fuel as [|fuel IH]; intros fuel' name w Hlen Hlen'; [lia|].
  destruct fuel' as [|fuel']; [lia|]. cbn [makedirs_rec].
  destruct (makedirs_head_tail name) as [head tail] eqn:Hsplit.
  apply makedirs_split in Hsplit as (_ & _ & Hlt & _).
  destruct (bool_decide (head ≠ EmptyString) && bool_decide (tail ≠ EmptyString)
            && negb (os_path_exists w head)) eqn:Hguard; [|done].
  apply andb_true_iff in Hguard as [[_ Ht%bool_decide_eq_true]%andb_true_iff _].
  specialize (Hlt Ht). by rewrite (IH fuel' head w) by lia.
Qed.




End MakedirsFacts.

(** * shutil.copy2 on the in-memory filesystem *)
Section CopyFacts.
Import Script Posix.
Implicit Types (f : gmap (list string) node) (k : list string) (w : World)
  (src dst : string).

Lemma lookup_At_file w p k data meta :
  lookup w p = At k (File data meta) →
  walk_path w p = At k (File data meta) ∧ ends_with_sep p = false.
Proof.
  unfold lookup. destruct (walk_path w p) as [k' [|data' meta']|k'' | | ]; try done.
  by destruct (ends_with_sep p).
Qed.

Lemma walk_path_found w p : walk_path w p ≠ NoEnt → p ≠ EmptyString.
Proof. unfold walk_path. by case_bool_decide. Qed.

(** [copyfile] then [copystat]: one entry becomes a file with the data and
    the metadata of the source, which is another entry. *)
Lemma copy_steps_file w src dst w' :
  match copyfile src dst w with
  | (inl e, w1) => (inl e, w1)
  | (inr _, w1) => copystat src dst w1
  end = (inr (), w') →
  ∃ ks kd data meta,
    walk_path w src = At ks (File data meta)
    ∧ ends_with_sep src = false
    ∧ ks ≠ kd
    ∧ fs w !! kd ≠ Some Dir
    ∧ w' = with_fs w (<[kd := File data meta]> (fs w)).
Proof.
  unfold copyfile. destruct (samefile src dst w) eqn:Hsame; [done|].
  destruct (lookup w src) as [ks [|data meta]|ks' | | ] eqn:Hsrc; try done.
  apply lookup_At_file in Hsrc as [Hsrc Hsrc_end].
  destruct (ends_with_sep dst) eqn:Hdst_end; [by destruct (os_path_exists w dst)|].
  assert (src ≠ EmptyString) as Hsrc_ne by (apply (walk_path_found w); by rewrite Hsrc).
  pose proof Hsrc as Hsrc_walk. rewrite walk_path_nonempty in Hsrc_walk by done.
  pose proof (walk_At_file _ _ _ _ _ _ Hsrc_walk) as Hks.
  assert (∀ kd st,
      fs w !! kd ≠ Some Dir → ks ≠ kd →
      (walk_path w dst = Absent kd
       ∨ ∃ data' meta', walk_path w dst = At kd (File data' meta')) →
      copystat src dst (with_fs w (<[kd := File data st]> (fs w))) = (inr (), w') →
      w' = with_fs w (<[kd := File data meta]> (fs w))) as Hstat.
  { intros kd st Hkd Hne Hdst.
    assert (dst ≠ EmptyString) as Hdst_ne.
    { apply (walk_path_found w). by destruct Hdst as [->|(? & ? & ->)]. }
    rewrite walk_path_nonempty in Hdst by done.
    unfold copystat, lookup. rewrite !walk_path_with_fs by done.
    rewrite (walk_insert_file _ _ _ _ _ _ _ _ Hkd Hne Hsrc_walk). cbv beta iota.
    rewrite Hsrc_end.
    rewrite (walk_insert_target _ _ _ _ _ _ Hkd Hdst). cbv beta iota.
    rewrite Hdst_end.
    intros [= <-]. unfold with_fs; simpl. by rewrite insert_insert_eq. }
  destruct (walk_path w dst) as [kd [|data' old]|kd | | ] eqn:Hdst; try done.
  - intros Hcp. exists ks, kd, data, meta.
    assert (fs w !! kd = Some (File data' old)) as Hkd.
    { rewrite walk_path_nonempty in Hdst
        by (apply (walk_path_found w); by rewrite Hdst).
      by eapply walk_At_file. }
    assert (ks ≠ kd) as Hne.
    { unfold samefile, lookup in Hsame. rewrite Hsrc, Hdst in Hsame.
      cbv beta iota in Hsame. rewrite Hsrc_end, Hdst_end in Hsame.
      by apply bool_decide_eq_false in Hsame. }
    split_and!; try done; [by rewrite Hkd|].
    eapply Hstat; [by rewrite Hkd | done | eauto | done].
  - intros Hcp. exists ks, kd, data, meta.
    assert (fs w !! kd = None) as Hkd.
    { rewrite walk_path_nonempty in Hdst
        by (apply (walk_path_found w); by rewrite Hdst).
      by eapply walk_Absent. }
    assert (ks ≠ kd) as Hne by (intros ->; congruence).
    split_and!; try done; [by rewrite Hkd|].
    eapply Hstat; [by rewrite Hkd | done | eauto | done].
Qed.

(** A copy that returns changes one entry and leaves the source as it was. *)
Lemma copy2_keeps_source w src dst w' :
  copy2 src dst w = (inr (), w') →
  node_at w' src = node_at w src
  ∧ ∃ k, ∀ k', k' ≠ k → fs w' !! k' = fs w !! k'.
Proof.
  unfold copy2. intros Hcp.
  apply copy_steps_file in Hcp as (ks & kd & data & meta & Hsrc & Hend & Hne & Hkd & ->).
  assert (src ≠ EmptyString) as Hsrc_ne by (apply (walk_path_found w); by rewrite Hsrc).
  split.
  - unfold node_at, lookup. rewrite walk_path_with_fs, Hsrc by done.
    rewrite walk_path_nonempty in Hsrc by done.
    rewrite (walk_insert_file _ _ _ _ _ _ _ _ Hkd Hne Hsrc). cbv beta iota.
    by rewrite Hend.
  - exists kd. intros k' Hk'. simpl. by rewrite lookup_insert_ne.
Qed.

End CopyFacts.

(** * The script on the in-memory filesystem *)
Section PosixFacts.
Import Script Posix.
Context (client : hub_client).
Implicit Types (argv : list string) (w : World) (d path : string).

Lemma place_posix path out w :
  @place World (posix_os client) path out w =
    if bool_decide (abspath w path ≠ abspath w out) then copy2 path out w
    else (inr (), w).
Proof. reflexivity. Qed.

Lemma place_events_posix path out w :
  @place_events World (posix_os client) path out w =
    if bool_decide (abspath w path ≠ abspath w out)
    then [EvAbspath path; EvAbspath out; EvCopy2 path out]
    else [EvAbspath path; EvAbspath out].
Proof. reflexivity. Qed.

(** A successful run either found the file in place or copied it. *)
Lemma successful_run argv d w path w1 :
  argv !! 1%nat = Some d →
  Posix.client_outcome client d w = Some (inr path, w1) →
  p_exit (Posix.run client argv w) = 0 →
  (abspath w1 path = abspath w1 (canonical d)
   ∧ p_world (Posix.run client argv w) = w1
   ∧ p_trace (Posix.run client argv w) =
       [EvMakedirs d true; EvImportHub; EvDownload (request d);
        EvAbspath path; EvAbspath (canonical d)])
  ∨ (abspath w1 path ≠ abspath w1 (canonical d)
     ∧ copy2 path (canonical d) w1 = (inr (), p_world (Posix.run client argv w))
     ∧ p_trace (Posix.run client argv w) =
         [EvMakedirs d true; EvImportHub; EvDownload (request d);
          EvAbspath path; EvAbspath (canonical d); EvCopy2 path (canonical d)]).
Proof.
  intros Hd Hc. unfold Posix.client_outcome in Hc.
  apply client_outcome_Some in Hc as (w0 & w0' & Hmk & Him & Hdl).
  unfold Posix.run. rewrite (run_with_arg _ _ _ Hd), Hmk, Him, Hdl. simpl.
  rewrite place_posix, place_events_posix.
  case_bool_decide as Hne.
  - destruct (copy2 path (canonical d) w1) as [[e|[]] w2]; [done|].
    destruct (stdout_write (canonical d)); [done|].
    intros _. right. done.
  - destruct (stdout_write (canonical d)); [done|].
    intros _. left. split; [|done].
    by destruct (decide (abspath w1 path = abspath w1 (canonical d))).
Qed.


(** X10: a successful run copies, it does not move: the file the client
    returned is afterwards what it was when the client returned, and the
    script has changed at most one entry of the filesystem the client left. *)
Theorem success_keeps_client_file argv d w path w1 :
  argv !! 1%nat = Some d →
  Posix.client_outcome client d w = Some (inr path, w1) →
  p_exit (Posix.run client argv w) = 0 →
  node_at (p_world (Posix.run client argv w)) path = node_at w1 path
  ∧ ∃ k, ∀ k', k' ≠ k → fs (p_world (Posix.run client argv w)) !! k' = fs w1 !! k'.
Proof.
  intros Hd Hc Hexit.
  destruct (successful_run _ _ _ _ _ Hd Hc Hexit) as [(_ & -> & _) | (_ & Hcp & _)].
  - split; [done|]. by exists [].
  - exact (copy2_keeps_source _ _ _ _ Hcp).
Qed.

End PosixFacts.

Section CanonicalPath.
Import Script Posix.

(** X9: the canonical path keeps the argument as it was passed, as its
    beginning, and its file name is always [autocodebench.jsonl]. *)
Theorem canonical_keeps_form_and_name d :
  String.prefix d (canonical d) = true
  ∧ basename (canonical d) = "autocodebench.jsonl".
Proof.
  unfold canonical, os_path_join, basename. simpl starts_with_sep. cbv iota.
  destruct (bool_decide (d = EmptyString) || ends_with_sep d) eqn:Hd.
  - split; [apply prefix_append|].
    apply orb_true_iff in Hd as [Hd | Hd].
    + apply bool_decide_eq_true in Hd as ->. reflexivity.
    + apply ends_with_sep_split in Hd as [a' ->].
      rewrite append_assoc.
      change ("/" +:+ "autocodebench.jsonl") with (String "/" "autocodebench.jsonl").
      by rewrite (proj2 (last_split_sep_append a' "autocodebench.jsonl")).
  - split; [apply prefix_append|].
    change ("/" +:+ "autocodebench.jsonl") with (String "/" "autocodebench.jsonl").
    by rewrite (proj2 (last_split_sep_append d "autocodebench.jsonl")).
Qed.

End CanonicalPath.

(** * The scenarios of the specification, run *)
Section Scenarios.
Import Script Posix.

(** The client puts the file directly into [/tmp/ds]. *)
Example direct_layout :
  let r := Posix.run direct_client [script_name; "/tmp/ds"] fresh_world in
  p_stdout r = "/tmp/ds/autocodebench.jsonl" +:+ nl
  ∧ p_exit r = 0
  ∧ List.filter is_fs_write (p_trace r) = [EvMakedirs "/tmp/ds" true]
  ∧ node_at (p_world r) "/tmp/ds/autocodebench.jsonl" = Some (File artifact artifact_stat).
Proof. vm_compute. done. Qed.

(** The client puts the file below a snapshot directory of [/tmp/ds2]. *)
Example nested_layout :
  let r := Posix.run nested_client [script_name; "/tmp/ds2"] fresh_world in
  p_stdout r = "/tmp/ds2/autocodebench.jsonl" +:+ nl
  ∧ p_exit r = 0
  ∧ List.filter is_fs_write (p_trace r) =
      [EvMakedirs "/tmp/ds2" true;
       EvCopy2 "/tmp/ds2/snapshots/abc/autocodebench.jsonl" "/tmp/ds2/autocodebench.jsonl"]
  ∧ node_at (p_world r) "/tmp/ds2/autocodebench.jsonl" = Some (File artifact artifact_stat).
Proof. vm_compute. done. Qed.

(** The empty output directory: [makedirs] raises [FileNotFoundError] and the
    interpreter exits with a traceback of seven lines. *)
Example empty_output_dir :
  let r := Posix.run direct_client [script_name; EmptyString] fresh_world in
  p_exit r = 1
  ∧ p_stdout r = EmptyString
  ∧ p_stderr r =
      traceback (FileNotFoundError EmptyString
                   (makedirs_frames script_path +:+ mkdir_frame))
  ∧ line_count (p_stderr r) = 7%nat
  ∧ p_trace r = [EvMakedirs EmptyString true]
  ∧ p_world r = fresh_world.
Proof. vm_compute. done. Qed.

(** [os.makedirs] with [..] in the name, as the library does it: the
    directory named before [..] is made as well, and a regular file there is
    an error. *)
Example makedirs_through_dotdot :
  (∃ w', makedirs "/tmp/x/../y" true world_with_file_in_the_way = (inr (), w')
         ∧ is_dir w' "/tmp/x" = true ∧ is_dir w' "/tmp/y" = true)
  ∧ makedirs "/tmp/f/../y" true world_with_file_in_the_way
      = (inl (NotADirectoryError "/tmp/f/.." (recursion_frame +:+ mkdir_frame)),
         world_with_file_in_the_way).
Proof. split; [eexists|]; vm_compute; done. Qed.

Lemma success_prints_canonical_path_witness :
  let r := Posix.run nested_client [script_name; "ds2"] home_world in
  p_stdout r = "ds2/autocodebench.jsonl" +:+ nl
  ∧ p_exit r = 0.
Proof.
  eapply (@success_prints_canonical_path World (posix_os nested_client)
            [script_name; "ds2"] "ds2" home_world).
  - reflexivity.
  - vm_compute. reflexivity.
  - vm_compute. reflexivity.
  - vm_compute. reflexivity.
Defined.

(** C1, as stated, fails: the client returns, the copy of line 29 runs out of
    disk space, and the run ends with code 2 and an empty standard output. *)
Lemma client_success_without_output :
  let r := Double.run Double.disk_full [script_name; "/tmp/ds"] in
  @Script.client_outcome unit (Double.scripted_os Double.disk_full) "/tmp/ds" ()
    = Some (inr "/tmp/ds/.cache/abc/autocodebench.jsonl", ())
  ∧ p_stdout r = EmptyString
  ∧ p_stderr r = "[Errno 28] No space left on device" +:+ nl
  ∧ p_exit r = 2.
Proof. vm_compute. done. Qed.

(** C2: the code misses a case.  With a directory already at the canonical
    path, the client returns a file elsewhere, the run exits 0 and prints the
    canonical path, and [copy2] has put the copy inside that directory: the
    canonical path still names a directory, not the artifact. *)
Theorem copy_into_directory :
  let r := Posix.run nested_client [script_name; "/tmp/ds2"]
             world_with_directory_at_target in
  ∃ w1,
    Posix.client_outcome nested_client "/tmp/ds2" world_with_directory_at_target
      = Some (inr "/tmp/ds2/snapshots/abc/autocodebench.jsonl", w1)
    ∧ abspath w1 "/tmp/ds2/snapshots/abc/autocodebench.jsonl"
        ≠ abspath w1 (canonical "/tmp/ds2")
    ∧ node_at w1 "/tmp/ds2/snapshots/abc/autocodebench.jsonl"
        = Some (File artifact artifact_stat)
    ∧ p_exit r = 0
    ∧ p_stdout r = "/tmp/ds2/autocodebench.jsonl" +:+ nl
    ∧ node_at (p_world r) (canonical "/tmp/ds2") = Some Dir
    ∧ node_at (p_world r) "/tmp/ds2/autocodebench.jsonl/autocodebench.jsonl"
        = Some (File artifact artifact_stat).
Proof. eexists. vm_compute. repeat split; try reflexivity. discriminate. Qed.

Lemma transfer_errors_exit_2_witness :
  let e := Exception "ConnectionError" "Connection reset by peer" EmptyString in
  let r := Posix.run (failing_client e) [script_name; "/tmp/ds"] fresh_world in
  p_exit r = 2
  ∧ p_stderr r = "Connection reset by peer" +:+ nl
  ∧ p_stdout r = EmptyString.
Proof.
  intros e r.
  apply (@transfer_errors_exit_2 World (posix_os (failing_client e))
           [script_name; "/tmp/ds"] "/tmp/ds" fresh_world e
           (snd (makedirs "/tmp/ds" true fresh_world))).
  - reflexivity.
  - left. vm_compute. reflexivity.
Defined.

Lemma no_argument_is_usage_error_witness :
  Posix.run direct_client [script_name] fresh_world =
    mkProcess EmptyString ("Usage: download_dataset.py <output_dir>" +:+ nl) 1 []
      fresh_world.
Proof.
  apply (@no_argument_is_usage_error World (posix_os direct_client)
           [script_name] fresh_world).
  simpl. lia.
Defined.



Lemma one_report_per_run_witness :
  let r := Posix.run direct_client [script_name; "/tmp/ds"] world_without_hub in
  p_exit r = 2
  ∧ p_stdout r = EmptyString
  ∧ p_stderr r = "No module named 'huggingface_hub'" +:+ nl.
Proof.
  pose proof (@one_report_per_run World (posix_os direct_client)
                [script_name; "/tmp/ds"] world_without_hub) as H.
  simpl in H. apply H. intros d [= <-]. vm_compute. reflexivity.
Defined.

(** C6, as stated, fails: the output directory cannot be created, the
    exception leaves [main] uncaught, and standard error receives the seven
    lines of the traceback. *)
Lemma makedirs_failure_prints_traceback :
  let r := Double.run Double.read_only_parent [script_path; "/srv/ds"] in
  p_exit r = 1
  ∧ p_stdout r = EmptyString
  ∧ line_count (p_stderr r) = 7%nat
  ∧ p_trace r = [EvMakedirs "/srv/ds" true].
Proof. vm_compute. done. Qed.

(** C7: the same missed case as C2, twice.  With a directory at the
    canonical path both runs exit 0, the client returning a regular file each
    time, and after each run the canonical path is still that directory. *)
Theorem two_runs_into_directory :
  let argv := [script_name; "/tmp/ds2"] in
  let r1 := Posix.run nested_client argv world_with_directory_at_target in
  let r2 := Posix.run nested_client argv (p_world r1) in
  p_exit r1 = 0 ∧ p_exit r2 = 0
  ∧ (∃ w1, Posix.client_outcome nested_client "/tmp/ds2" world_with_directory_at_target
             = Some (inr "/tmp/ds2/snapshots/abc/autocodebench.jsonl", w1)
           ∧ is_file w1 "/tmp/ds2/snapshots/abc/autocodebench.jsonl" = true)
  ∧ (∃ w2, Posix.client_outcome nested_client "/tmp/ds2" (p_world r1)
             = Some (inr "/tmp/ds2/snapshots/abc/autocodebench.jsonl", w2)
           ∧ is_file w2 "/tmp/ds2/snapshots/abc/autocodebench.jsonl" = true)
  ∧ is_file (p_world r1) (canonical "/tmp/ds2") = false
  ∧ is_file (p_world r2) (canonical "/tmp/ds2") = false.
Proof.
  split; [by vm_compute|]. split; [by vm_compute|].
  split; [eexists; by vm_compute|]. split; [eexists; by vm_compute|].
  by vm_compute.
Qed.

Lemma client_called_exactly_once_witness :
  let r := Posix.run nested_client [script_name; "/tmp/ds2"] fresh_world in
  List.filter is_download (p_trace r) =
    [EvDownload {| repo_id := "tencent/AutoCodeBenchmark";
                   filename := "autocodebench.jsonl";
                   repo_type := "dataset";
                   local_dir := "/tmp/ds2";
                   local_dir_use_symlinks := false |}]
  ∧ node_at (p_world r) "/tmp/ds2/snapshots/abc/autocodebench.jsonl"
      = Some (File artifact artifact_stat).
Proof.
  destruct (@client_called_exactly_once World (posix_os nested_client)
              [script_name; "/tmp/ds2"] "/tmp/ds2" fresh_world
              (makedirs "/tmp/ds2" true fresh_world).2
              (makedirs "/tmp/ds2" true fresh_world).2) as [Hlog Hworld].
  - reflexivity.
  - vm_compute. reflexivity.
  - vm_compute. reflexivity.
  - split; [exact Hlog|]. vm_compute. reflexivity.
Defined.

Lemma import_error_is_reported_witness :
  Posix.run direct_client [script_name; "/tmp/ds"] world_without_hub =
    mkProcess EmptyString ("No module named 'huggingface_hub'" +:+ nl) 2
      [EvMakedirs "/tmp/ds" true; EvImportHub]
      (with_fs world_without_hub {[ ["tmp"] := Dir; ["tmp"; "ds"] := Dir ]}).
Proof.
  apply (@import_error_is_reported World (posix_os direct_client)
           [script_name; "/tmp/ds"] "/tmp/ds" world_without_hub
           (with_fs world_without_hub {[ ["tmp"] := Dir; ["tmp"; "ds"] := Dir ]})
           ModuleNotFoundError).
  - reflexivity.
  - vm_compute. reflexivity.
  - vm_compute. reflexivity.
Defined.

Lemma success_keeps_client_file_witness :
  let r := Posix.run nested_client [script_name; "/tmp/ds2"]
             world_with_directory_at_target in
  node_at (p_world r) "/tmp/ds2/snapshots/abc/autocodebench.jsonl"
    = Some (File artifact artifact_stat).
Proof.
  destruct (success_keeps_client_file nested_client [script_name; "/tmp/ds2"] "/tmp/ds2"
              world_with_directory_at_target
              "/tmp/ds2/snapshots/abc/autocodebench.jsonl"
              (snd (nested_client (request "/tmp/ds2")
                      (snd (makedirs "/tmp/ds2" true world_with_directory_at_target)))))
    as [H _].
  - reflexivity.
  - vm_compute. reflexivity.
  - vm_compute. reflexivity.
  - etrans; [exact H|]. vm_compute. reflexivity.
Defined.

Lemma calls_in_source_order_witness :
  p_trace (Posix.run nested_client [script_name; "/tmp/ds2"] fresh_world)
    `prefix_of` call_sequence "/tmp/ds2" "/tmp/ds2/snapshots/abc/autocodebench.jsonl".
Proof.
  apply (@calls_in_source_order World (posix_os nested_client)
           [script_name; "/tmp/ds2"] "/tmp/ds2" fresh_world).
  reflexivity.
Defined.

Lemma file_in_place_is_not_copied_witness :
  let w1 := snd (direct_client (request "/tmp/ds")
                   (snd (makedirs "/tmp/ds" true fresh_world))) in
  let r := Posix.run direct_client [script_name; "/tmp/ds"] fresh_world in
  p_trace r =
    [EvMakedirs "/tmp/ds" true; EvImportHub; EvDownload (request "/tmp/ds");
     EvAbspath "/tmp/ds/autocodebench.jsonl";
     EvAbspath "/tmp/ds/autocodebench.jsonl"]
  ∧ p_world r = w1.
Proof.
  intros w1 r.
  destruct (@file_in_place_is_not_copied World (posix_os direct_client)
              [script_name; "/tmp/ds"] "/tmp/ds" fresh_world
              "/tmp/ds/autocodebench.jsonl" w1 "/tmp/ds/autocodebench.jsonl" w1 w1)
    as (Htr & Hw & _).
  - reflexivity.
  - vm_compute. reflexivity.
  - vm_compute. reflexivity.
  - vm_compute. reflexivity.
  - split; [exact Htr | exact Hw].
Defined.

Lemma exit_1_means_no_transfer_witness :
  p_trace (Posix.run direct_client [script_name] fresh_world) = []
  ∨ ∃ d, p_trace (Posix.run direct_client [script_name] fresh_world)
           = [EvMakedirs d true].
Proof.
  destruct (@exit_1_means_no_transfer World (posix_os direct_client)
              [script_name] fresh_world) as [_ [(_ & _ & Htr & _) | (d & e & w0 & _ & _ & _ & Htr & _)]].
  - vm_compute. reflexivity.
  - left. exact Htr.
  - right. exists d. exact Htr.
Defined.

Lemma exit_2_means_caught_exception_witness :
  p_stdout (Posix.run direct_client [script_name; "/tmp/ds"] world_without_hub)
    = EmptyString.
Proof.
  apply (@exit_2_means_caught_exception World (posix_os direct_client)
           [script_name; "/tmp/ds"] world_without_hub).
  vm_compute. reflexivity.
Defined.

Lemma client_failure_ends_the_run_witness :
  let e := Exception "ConnectionError" "Connection reset by peer" EmptyString in
  Posix.run (failing_client e) [script_name; "/tmp/ds"] fresh_world =
    mkProcess EmptyString ("Connection reset by peer" +:+ nl) 2
      [EvMakedirs "/tmp/ds" true; EvImportHub; EvDownload (request "/tmp/ds")]
      (snd (makedirs "/tmp/ds" true fresh_world)).
Proof.
  intros e.
  apply (@client_failure_ends_the_run World (posix_os (failing_client e))
           [script_name; "/tmp/ds"] "/tmp/ds" fresh_world e
           (snd (makedirs "/tmp/ds" true fresh_world))).
  - reflexivity.
  - vm_compute. reflexivity.
Defined.

(** An argument that is not UTF-8: the directory is made, the client stores
    the file, and the [print] of line 30 raises inside the [try]. *)
Lemma print_failure_is_reported_witness :
  let d := "/tmp/d" +:+ String "255"%char EmptyString in
  let r := Posix.run direct_client [script_name; d] fresh_world in
  p_exit r = 2
  ∧ p_stdout r = EmptyString
  ∧ p_stderr r =
      "'utf-8' codec can't encode character '\udcff' in position 6: surrogates not allowed"
        +:+ nl
  ∧ is_file (p_world r) (canonical d) = true.
Proof.
  intros d r.
  pose (w1 := snd (direct_client (request d) (snd (makedirs d true fresh_world)))).
  pose proof (@print_failure_is_reported World (posix_os direct_client)
                [script_name; d] d fresh_world (canonical d) w1 w1
                (Exception "UnicodeEncodeError"
                   "'utf-8' codec can't encode character '\udcff' in position 6: surrogates not allowed"
                   EmptyString)) as H.
  unfold r, Posix.run. rewrite H.
  - vm_compute. done.
  - reflexivity.
  - vm_compute. reflexivity.
  - vm_compute. reflexivity.
  - vm_compute. reflexivity.
Defined.

End Scenarios.
